(** * node-steamcommunity: [components/webapi.js]

    A shallow embedding of the Web API key provisioning flow
    ([getWebApiKey], [createWebApiKey]) and of the mobile access token
    checks ([setMobileAppAccessToken], [_verifyMobileAccessToken]),
    followed by the properties proved about them. *)

From Stdlib Require Import String ZArith List Bool Lia.
From Stdlib Require Import DecimalString.
Import ListNotations.
Open Scope string_scope.
Open Scope Z_scope.

Set Implicit Arguments.

(** ** JavaScript values as the component uses them *)

Module Js.

(** An [Error] object: its [name] ("Error", "TypeError"), its [message]
    and the [eresult] property that [Helpers.eresultError] attaches. *)
Record Error : Type := mkError {
  name : string;
  message : string;
  eresult : option Z
}.

(** [new Error(message)] *)
Definition new_Error (msg : string) : Error :=
  {| name := "Error"; message := msg; eresult := None |}.

(** The engine's error for a method call on [undefined] or [null]. *)
Definition new_TypeError (msg : string) : Error :=
  {| name := "TypeError"; message := msg; eresult := None |}.

(** A property that may be missing is an [option]; [None] is
    [undefined].  Truthiness, type by type. *)
Definition truthy_string (v : option string) : bool :=
  match v with
  | None => false
  | Some s => negb (String.eqb s "")
  end.

Definition truthy_number (v : option Z) : bool :=
  match v with
  | None => false
  | Some n => negb (Z.eqb n 0)
  end.

(** Arrays and other objects are truthy, also when empty. *)
Definition truthy_object {A : Type} (v : option A) : bool :=
  match v with
  | None => false
  | Some _ => true
  end.

(** [a || b] on strings that may be missing. *)
Definition or_string (a b : option string) : option string :=
  if truthy_string a then a else b.

(** [a || []] *)
Definition or_empty_array {A : Type} (a : option (list A)) : list A :=
  match a with
  | Some l => l
  | None => []
  end.

(** [v == lit] and [v != lit] where [lit] is a string. *)
Definition eq_string (v : option string) (lit : string) : bool :=
  match v with
  | None => false
  | Some s => String.eqb s lit
  end.

Definition neq_string (v : option string) (lit : string) : bool :=
  negb (eq_string v lit).

(** [v < n] on numbers; [undefined < n] is false. *)
Definition lt_number (v : option Z) (n : Z) : bool :=
  match v with
  | None => false
  | Some e => Z.ltb e n
  end.

(** A value inside a template literal. *)
Definition template (v : option string) : string :=
  match v with
  | None => "undefined"
  | Some s => s
  end.

(** [Array.prototype.indexOf] on an array of strings. *)
Fixpoint indexOf_from (l : list string) (x : string) (i : Z) : Z :=
  match l with
  | [] => -1
  | y :: l' => if String.eqb y x then i else indexOf_from l' x (i + 1)
  end.

Definition indexOf (l : list string) (x : string) : Z := indexOf_from l x 0.

(** [Math.floor(ms / 1000)] *)
Definition floor_div_1000 (ms : Z) : Z := ms / 1000.

(** How a synchronous call ends. *)
Inductive Completion : Type :=
| Normal
| Throw (e : Error).

End Js.

Import Js.

(** ** Mobile access token *)

Module MobileToken.

(** Modelled from the spec: the object [Helpers.decodeJwt] returns
    ([components/helpers.js] is not among the sources).  It holds the
    claims {issuer, subject, audience: set-of-string, expiry:
    unix-seconds}; the component reads them as [iss], [sub], [aud] and
    [exp], and any of them may be missing. *)
Record DecodedToken : Type := {
  iss : option string;
  sub : option string;
  aud : option (list string);
  exp : option Z
}.

(** The [SteamID] object, as far as the component uses it. *)
Record SteamID : Type := { getSteamID64 : string }.

(** The fields of the [SteamCommunity] instance the token code touches. *)
Record SteamCommunity : Type := {
  steamID : option SteamID;
  mobileAccessToken : option string
}.

Definition set_mobileAccessToken (this : SteamCommunity) (v : option string)
  : SteamCommunity :=
  {| steamID := steamID this; mobileAccessToken := v |}.

Definition err_not_logged_on : Error :=
  new_Error "Log on to steamcommunity before setting a mobile app access token".
Definition err_not_a_token : Error :=
  new_Error "Provided value is not a valid Steam access token".
Definition err_refresh_token : Error :=
  new_Error "Provided token is a refresh token, not an access token".
Definition err_wrong_account (token_sub : option string) (own : string) : Error :=
  new_Error ("Provided token belongs to account " ++ template token_sub
             ++ ", but we are logged into " ++ own).
Definition err_expired : Error :=
  new_Error "Provided token is expired".
Definition err_wrong_platform : Error :=
  new_Error "Provided token is not valid for MobileApp platform type".
Definition err_no_steamID : Error :=
  new_TypeError "Cannot read properties of undefined (reading 'getSteamID64')".

Section WithDecoder.

(** [Helpers.decodeJwt] lives in [components/helpers.js]: it is a
    parameter here.  It returns the claims of a token, or throws. *)
Variable decodeJwt : string -> Error + DecodedToken.

(** [setMobileAppAccessToken(token)], at clock reading [now]
    ([Date.now()], milliseconds).  The result is how the call ends and
    the instance afterwards. *)
Definition setMobileAppAccessToken (now : Z) (this : SteamCommunity)
    (token : string) : Completion * SteamCommunity :=
  match steamID this with
  | None => (Throw err_not_logged_on, this)
  | Some sid =>
    match decodeJwt token with
    | inl thrown => (Throw thrown, this)
    | inr decodedToken =>
      if negb (truthy_string (iss decodedToken))
         || negb (truthy_string (sub decodedToken))
         || negb (truthy_object (aud decodedToken))
         || negb (truthy_number (exp decodedToken))
      then (Throw err_not_a_token, this)
      else if eq_string (iss decodedToken) "steam"
      then (Throw err_refresh_token, this)
      else if neq_string (sub decodedToken) (getSteamID64 sid)
      then (Throw (err_wrong_account (sub decodedToken) (getSteamID64 sid)), this)
      else if lt_number (exp decodedToken) (floor_div_1000 now)
      then (Throw err_expired, this)
      else if Z.eqb (indexOf (or_empty_array (aud decodedToken)) "mobile") (-1)
      then (Throw err_wrong_platform, this)
      else (Normal, set_mobileAccessToken this (Some token))
    end
  end.

(** [_verifyMobileAccessToken()].  The stored token is decoded before
    [this.steamID] is read, and neither step is guarded. *)
Definition _verifyMobileAccessToken (now : Z) (this : SteamCommunity)
    : Completion * SteamCommunity :=
  match mobileAccessToken this with
  | None => (Normal, this)
  | Some token =>
    if negb (truthy_string (Some token))
    then (Normal, this)
    else
      match decodeJwt token with
      | inl thrown => (Throw thrown, this)
      | inr decodedToken =>
        match steamID this with
        | None => (Throw err_no_steamID, this)
        | Some sid =>
          let isTokenInvalid :=
            neq_string (sub decodedToken) (getSteamID64 sid)
            || lt_number (exp decodedToken) (floor_div_1000 now) in
          if isTokenInvalid
          then (Normal, set_mobileAccessToken this None)
          else (Normal, this)
        end
      end
  end.

(** The session holds no token ([mobileAccessToken] is falsy), or one
    that decodes and whose [sub] claim is the SteamID64 of the account
    logged on. *)
Definition token_belongs_to_identity (this : SteamCommunity) : bool :=
  match mobileAccessToken this with
  | None => true
  | Some token =>
    if negb (truthy_string (Some token))
    then true
    else
      match decodeJwt token, steamID this with
      | inr decodedToken, Some sid =>
          eq_string (sub decodedToken) (getSteamID64 sid)
      | _, _ => false
      end
  end.

(** The states of an instance that its operations produce.  A new
    instance has neither identity nor token.  Logging on is outside this
    file (the spec's [currentIdentity()], which "must be set before
    install" and may later be "mutated to a different value"): it sets
    [steamID] to a SteamID, and nothing unsets it.  The token is written
    by the two functions above and by nothing else. *)
Inductive Reachable : SteamCommunity -> Prop :=
| reach_new :
    Reachable {| steamID := None; mobileAccessToken := None |}
| reach_log_on (this : SteamCommunity) (sid : SteamID) :
    Reachable this ->
    Reachable {| steamID := Some sid;
                 mobileAccessToken := mobileAccessToken this |}
| reach_install (this : SteamCommunity) (now : Z) (token : string) :
    Reachable this ->
    Reachable (snd (setMobileAppAccessToken now this token))
| reach_verify (this : SteamCommunity) (now : Z) :
    Reachable this ->
    Reachable (snd (_verifyMobileAccessToken now this)).

End WithDecoder.

End MobileToken.

(** ** Web API key provisioning *)

Module WebApiKey.

(** [identitySecret] is a string or a [Buffer]; a [Buffer] is an object
    and so truthy whatever its length. *)
Inductive Secret : Type :=
| SecretString (s : string)
| SecretBuffer (bytes : list Byte.byte).

Definition truthy_secret (v : option Secret) : bool :=
  match v with
  | None => false
  | Some (SecretString s) => truthy_string (Some s)
  | Some (SecretBuffer _) => true
  end.

Record CreateApiKeyOptions : Type := {
  domain : option string;
  requestID : option string;
  identitySecret : option Secret
}.

Record CreateApiKeyResponse : Type := {
  confirmationRequired : bool;
  apiKey : option string;
  finalizeOptions : option CreateApiKeyOptions
}.

(** The two shapes of [CreateApiKeyResponse] the component builds. *)
Definition Issued (key : option string) : CreateApiKeyResponse :=
  {| confirmationRequired := false; apiKey := key; finalizeOptions := None |}.

Definition PendingConfirmation (resume : CreateApiKeyOptions)
  : CreateApiKeyResponse :=
  {| confirmationRequired := true; apiKey := None;
     finalizeOptions := Some resume |}.

(** The form posted to [/dev/requestkey]. *)
Record RequestKeyForm : Type := {
  form_domain : option string;
  form_request_id : option string;
  form_sessionid : string;
  form_agreeToTerms : string
}.

Record PostOptions : Type := {
  post_uri : string;
  post_form : RequestKeyForm;
  post_json : bool
}.

Record GetOptions : Type := {
  get_uri : string;
  get_followRedirect : bool
}.

Record HttpResponse : Type := { statusCode : Z }.

(** The JSON body [/dev/requestkey] answers with. *)
Record RequestKeyBody : Type := {
  success : Z;
  api_key : option string;
  request_id : option string;
  requires_confirmation : option Z
}.

(** The arguments [(err, response, body)] of an HTTP callback: an error,
    or a response with its body. *)
Definition PostReply : Type := (Error + HttpResponse * RequestKeyBody)%type.
Definition GetReply : Type := (Error + HttpResponse * string)%type.

(** An asynchronous operation in continuation-passing style: it ends by
    calling back with [r], or performs one request and goes on with the
    function it passed as the request's callback.  [source] is the last
    argument of [httpRequest] and [httpRequestPost], [None] where the
    caller passes none. *)
Inductive Async (R : Type) : Type :=
| Callback (r : R)
| HttpRequestPost (options : PostOptions) (source : option string)
    (k : PostReply -> Async R)
| HttpRequest (options : GetOptions) (source : option string)
    (k : GetReply -> Async R)
| AcceptConfirmationForObject (secret : Secret) (objectID : option string)
    (k : option Error -> Async R)
| OutOfFuel.

Arguments OutOfFuel {R}.

Fixpoint bind {A B : Type} (m : Async A) (f : A -> Async B) : Async B :=
  match m with
  | Callback r => f r
  | HttpRequestPost o s k => HttpRequestPost o s (fun x => bind (k x) f)
  | HttpRequest o s k => HttpRequest o s (fun x => bind (k x) f)
  | AcceptConfirmationForObject i o k =>
      AcceptConfirmationForObject i o (fun x => bind (k x) f)
  | OutOfFuel => OutOfFuel
  end.

(** What the component takes from the rest of the library: the two
    result codes of [SteamCommunity.EResult] it switches on,
    [Helpers.eresultError], the value of [this.getSessionID()], and the
    four regular expressions of [getWebApiKey] as matchers on the page. *)
Record Externals : Type := {
  EResult_OK : Z;
  EResult_Pending : Z;
  eresultError : Z -> Error;
  getSessionID : string;
  match_validated_email : string -> bool;
  match_authenticator_required : string -> bool;
  match_access_denied : string -> bool;
  match_key : string -> option string
}.

Definition err_domain_required : Error :=
  new_Error "Passing a domain is required to register an API key".

Section WithExternals.

Variable X : Externals.

(** [getWebApiKey(callback)]; the result is what the callback
    receives, [(err)] or [(null, key)]. *)
Definition getWebApiKey : Async (Error + string) :=
  HttpRequest
    {| get_uri := "https://steamcommunity.com/dev/apikey?l=english";
       get_followRedirect := false |}
    (Some "steamcommunity")
    (fun reply =>
       match reply with
       | inl err => Callback (inl err)
       | inr (response, body) =>
         if match_validated_email X body
         then Callback (inl (new_Error
           "You must have a validated email address to create a Steam Web API key."))
         else if match_authenticator_required X body
         then Callback (inl (new_Error
           "Steam Guard Mobile Authenticator required to create a Steam Web API key"))
         else if match_access_denied X body
         then Callback (inl (new_Error "Access Denied"))
         else
           match match_key X body with
           | Some key => Callback (inr key)
           | None =>
             Callback (inl (new_Error "No API key created for this account"))
           end
       end).

Definition requestkey_options (options : CreateApiKeyOptions) : PostOptions :=
  {| post_uri := "https://steamcommunity.com/dev/requestkey";
     post_form :=
       {| form_domain := domain options;
          form_request_id := or_string (requestID options) (Some "0");
          form_sessionid := getSessionID X;
          form_agreeToTerms := "true" |};
     post_json := true |}.

(** [finalizeOptions] of the [Pending] case. *)
Definition finalize_options (options : CreateApiKeyOptions)
    (body : RequestKeyBody) : CreateApiKeyOptions :=
  {| domain := domain options;
     requestID := or_string (request_id body) (requestID options);
     identitySecret := None |}.

(** The callback [createWebApiKey] passes to [httpRequestPost];
    [self] is [this.createWebApiKey]. *)
Definition requestkey_callback
    (self : CreateApiKeyOptions -> Async (Error + CreateApiKeyResponse))
    (options : CreateApiKeyOptions) (reply : PostReply)
    : Async (Error + CreateApiKeyResponse) :=
  match reply with
  | inl err => Callback (inl err)
  | inr (res, body) =>
    if Z.eqb (success body) (EResult_OK X) then
      if truthy_string (api_key body)
      then Callback (inr (Issued (api_key body)))
      else
        bind getWebApiKey (fun r =>
          match r with
          | inl err => Callback (inl err)
          | inr key => Callback (inr (Issued (Some key)))
          end)
    else if Z.eqb (success body) (EResult_Pending X) then
      let finalizeOptions := finalize_options options body in
      match identitySecret options with
      | Some secret =>
        if truthy_secret (Some secret)
        then
          AcceptConfirmationForObject secret (requestID finalizeOptions)
            (fun err =>
               match err with
               | Some e => Callback (inl e)
               | None => self finalizeOptions
               end)
        else Callback (inr (PendingConfirmation finalizeOptions))
      | None => Callback (inr (PendingConfirmation finalizeOptions))
      end
    else Callback (inl (eresultError X (success body)))
  end.

(** [createWebApiKey(options, callback)].  [fuel] bounds the depth of
    the calls of the function to itself. *)
Fixpoint createWebApiKey_fuel (fuel : nat) (options : CreateApiKeyOptions)
    : Async (Error + CreateApiKeyResponse) :=
  match fuel with
  | O => OutOfFuel
  | S fuel' =>
    if negb (truthy_string (domain options))
    then Callback (inl err_domain_required)
    else
      HttpRequestPost (requestkey_options options) None
        (requestkey_callback (createWebApiKey_fuel fuel') options)
  end.

(** The options a call passes to itself carry no secret, so a call
    never nests deeper than two. *)
Definition createWebApiKey (options : CreateApiKeyOptions)
    : Async (Error + CreateApiKeyResponse) :=
  createWebApiKey_fuel 2 options.

End WithExternals.

(** *** Running an operation against the network *)

Inductive Event : Type :=
| EvPost (options : PostOptions) (source : option string)
| EvGet (options : GetOptions) (source : option string)
| EvAccept (secret : Secret) (objectID : option string).

(** The collaborators, over a state [W] of the outside world:
    [httpRequestPost], [httpRequest] and [acceptConfirmationForObject]. *)
Record Network (W : Type) : Type := {
  httpRequestPost : PostOptions -> option string -> W -> PostReply * W;
  httpRequest : GetOptions -> option string -> W -> GetReply * W;
  acceptConfirmationForObject : Secret -> option string -> W -> option Error * W
}.

(** The outcome of a run: what the callback received ([None] when the
    fuel ran out), the world afterwards and the requests made, in order. *)
Record Run (R W : Type) : Type := {
  received : option R;
  world : W;
  trace : list Event
}.

Definition after {R W : Type} (ev : Event) (r : Run R W) : Run R W :=
  {| received := received r; world := world r; trace := ev :: trace r |}.

Definition map_received {A B W : Type} (f : A -> B) (r : Run A W) : Run B W :=
  {| received := option_map f (received r); world := world r;
     trace := trace r |}.

Fixpoint run {R W : Type} (net : Network W) (p : Async R) (w : W) : Run R W :=
  match p with
  | Callback r => {| received := Some r; world := w; trace := [] |}
  | HttpRequestPost o s k =>
      let (reply, w') := httpRequestPost net o s w in
      after (EvPost o s) (run net (k reply) w')
  | HttpRequest o s k =>
      let (reply, w') := httpRequest net o s w in
      after (EvGet o s) (run net (k reply) w')
  | AcceptConfirmationForObject i o k =>
      let (err, w') := acceptConfirmationForObject net i o w in
      after (EvAccept i o) (run net (k err) w')
  | OutOfFuel => {| received := None; world := w; trace := [] |}
  end.

(** What [createWebApiKey] hands its caller for what [getWebApiKey]
    handed it: the error as it is, or the key as [apiKey]. *)
Definition relay_lookup (r : Error + string) : Error + CreateApiKeyResponse :=
  match r with
  | inl err => inl err
  | inr key => inr (Issued (Some key))
  end.

(** A network that answers as [net] does, except that every
    [/dev/requestkey] body has its [requires_confirmation] replaced by
    what [hint] says. *)
Definition set_requires_confirmation (body : RequestKeyBody) (v : option Z)
    : RequestKeyBody :=
  {| success := success body; api_key := api_key body;
     request_id := request_id body; requires_confirmation := v |}.

Definition with_hint {W : Type} (hint : RequestKeyBody -> option Z)
    (net : Network W) : Network W :=
  {| httpRequestPost := fun o s w =>
       match httpRequestPost net o s w with
       | (inl err, w') => (inl err, w')
       | (inr (res, body), w') =>
           (inr (res, set_requires_confirmation body (hint body)), w')
       end;
     httpRequest := httpRequest net;
     acceptConfirmationForObject := acceptConfirmationForObject net |}.

End WebApiKey.

(** ** Concrete sessions, tokens and servers used to exercise the model *)

(** ** Revoking the key *)

Module RevokeKey.

(** A number inside a string concatenation, for whole numbers (below
    10^21, where JavaScript still prints every digit). *)
Definition number_to_string (n : Z) : string :=
  DecimalString.NilZero.string_of_int (Z.to_int n).

(** The form posted to [/dev/revokekey]. *)
Record RevokeForm : Type := {
  form_Revoke : string;
  form_revoke_sessionid : string
}.

Record RevokeOptions : Type := {
  revoke_uri : string;
  revoke_form : RevokeForm;
  revoke_json : bool
}.

Section WithBody.

(** The parsed body of the answer, which the component does not read. *)
Variable Body : Type.

Definition RevokeReply : Type := (Error + WebApiKey.HttpResponse * Body)%type.

(** [revokeWebApiKey] as an operation: one post, and the callback
    [callback(err)] or [callback(null)]. *)
Inductive Revocation : Type :=
| RevokeCallback (err : option Error)
| RevokePost (options : RevokeOptions) (source : string)
    (k : RevokeReply -> Revocation).

(** [revokeWebApiKey(callback)]; [sessionid] is [this.getSessionID()]. *)
Definition revokeWebApiKey (sessionid : string) : Revocation :=
  RevokePost
    {| revoke_uri := "https://steamcommunity.com/dev/revokekey";
       revoke_form :=
         {| form_Revoke := "Revoke My Steam Web API Key";
            form_revoke_sessionid := sessionid |};
       revoke_json := true |}
    "steamcommunity"
    (fun reply =>
       match reply with
       | inl err => RevokeCallback (Some err)
       | inr (response, body) =>
         if negb (Z.eqb (WebApiKey.statusCode response) 302)
         then RevokeCallback (Some (new_Error
                ("HTTP error " ++ number_to_string (WebApiKey.statusCode response))))
         else RevokeCallback None
       end).

(** A run against [httpRequestPost] over a world [W]: what the callback
    received, the world afterwards and the posts made. *)
Fixpoint run_revocation {W : Type}
    (httpRequestPost : RevokeOptions -> string -> W -> RevokeReply * W)
    (p : Revocation) (w : W)
    : option Error * W * list (RevokeOptions * string) :=
  match p with
  | RevokeCallback err => (err, w, [])
  | RevokePost o s k =>
      let (reply, w') := httpRequestPost o s w in
      let '(err, w'', posts) := run_revocation httpRequestPost (k reply) w' in
      (err, w'', (o, s) :: posts)
  end.

End WithBody.

End RevokeKey.

(** ** The kinds of request a run makes *)

Module Requests.

Inductive EventKind : Type :=
| Post
| Get
| Accept.

Definition kind (e : WebApiKey.Event) : EventKind :=
  match e with
  | WebApiKey.EvPost _ _ => Post
  | WebApiKey.EvGet _ _ => Get
  | WebApiKey.EvAccept _ _ => Accept
  end.

End Requests.

Module Samples.

Import MobileToken WebApiKey.

(** A decoder given by a table of tokens; on any other token it throws. *)
Fixpoint decode_table (table : list (string * DecodedToken)) (token : string)
    : Error + DecodedToken :=
  match table with
  | [] => inl (new_Error "Invalid JWT")
  | (t, d) :: rest =>
      if String.eqb t token then inr d else decode_table rest token
  end.

Definition alice : SteamID := {| getSteamID64 := "76561198000000001" |}.
Definition bob : SteamID := {| getSteamID64 := "76561198000000002" |}.

Definition claims (subject : string) (audience : option (list string))
    (expiry : Z) : DecodedToken :=
  {| iss := Some "r:0001_2345ABCD_6789E"; sub := Some subject;
     aud := audience; exp := Some expiry |}.

(** The clock reads 1700000000.999 s. *)
Definition clock : Z := 1700000000999.

Definition decodeJwt : string -> Error + DecodedToken :=
  decode_table
    [ ("alice.mobile.fresh",
       claims "76561198000000001" (Some ["web"; "mobile"]) 1700003600);
      ("alice.mobile.expires-now",
       claims "76561198000000001" (Some ["web"; "mobile"]) 1700000000);
      ("alice.mobile.expired",
       claims "76561198000000001" (Some ["web"; "mobile"]) 1699999999);
      ("alice.mobile.epoch",
       claims "76561198000000001" (Some ["web"; "mobile"]) 0);
      ("alice.web.fresh",
       claims "76561198000000001" (Some ["web"]) 1700003600);
      ("alice.no-audience.fresh",
       claims "76561198000000001" None 1700003600);
      ("bob.mobile.fresh",
       claims "76561198000000002" (Some ["web"; "mobile"]) 1700003600) ].

Definition logged_on_as (who : SteamID) (token : option string) : SteamCommunity :=
  {| steamID := Some who; mobileAccessToken := token |}.

Definition logged_off (token : option string) : SteamCommunity :=
  {| steamID := None; mobileAccessToken := token |}.

(** The result codes as Steam numbers them, and a page matcher that knows
    one page: the one that shows a key. *)
Definition key_page : string := "<p>Key: 0123456789ABCDEF</p>".

Definition steam : Externals :=
  {| EResult_OK := 1;
     EResult_Pending := 22;
     eresultError := fun code =>
       {| name := "Error"; message := "EResult"; eresult := Some code |};
     getSessionID := "0123456789abcdef01234567";
     match_validated_email := fun _ => false;
     match_authenticator_required := fun _ => false;
     match_access_denied := fun _ => false;
     match_key := fun body =>
       if String.eqb body key_page then Some "0123456789ABCDEF" else None |}.

Definition pending_body (hint : option Z) : RequestKeyBody :=
  {| success := 22; api_key := None; request_id := Some "4815162342";
     requires_confirmation := hint |}.

Definition ok_body (key : option string) : RequestKeyBody :=
  {| success := 1; api_key := key; request_id := None;
     requires_confirmation := Some 0 |}.

(** A server whose state is the number of registration calls it has
    answered: it answers [Pending] to the first [pendings] of them and [OK]
    with [key] from then on, shows [key_page] on the key page, and answers
    every confirmation with [approval]. *)
Definition server (pendings : nat) (key : option string)
    (approval : option Error) : Network nat :=
  {| httpRequestPost := fun _ _ n =>
       (inr ({| statusCode := 200 |},
             if Nat.ltb n pendings then pending_body (Some 1) else ok_body key),
        S n);
     httpRequest := fun _ _ n => (inr ({| statusCode := 200 |}, key_page), n);
     acceptConfirmationForObject := fun _ _ n => (approval, n) |}.

Definition manual : CreateApiKeyOptions :=
  {| domain := Some "example.com"; requestID := None; identitySecret := None |}.

Definition automatic : CreateApiKeyOptions :=
  {| domain := Some "example.com"; requestID := None;
     identitySecret := Some (SecretString "c2VjcmV0") |}.

End Samples.

(** More sample servers: one for [/dev/revokekey] whose state is the
    status it answers with, and one that answers every registration call
    with the same result code. *)
Module MoreSamples.

Import WebApiKey RevokeKey.

Definition revoke_server (o : RevokeOptions) (source : string) (status : Z)
    : RevokeReply unit * Z :=
  (inr ({| statusCode := status |}, tt), status).

Definition rejecting_server (code : Z) : Network nat :=
  {| httpRequestPost := fun _ _ n =>
       (inr ({| statusCode := 200 |},
             {| success := code; api_key := None; request_id := None;
                requires_confirmation := None |}),
        S n);
     httpRequest := fun _ _ n =>
       (inr ({| statusCode := 200 |}, Samples.key_page), n);
     acceptConfirmationForObject := fun _ _ n => (None, n) |}.

End MoreSamples.

(** * Properties *)

Unset Implicit Arguments.

Import MobileToken WebApiKey.

(** ** JavaScript helpers *)

Lemma truthy_string_Some (v : option string) :
  truthy_string v = true -> exists s, v = Some s /\ s <> "".
Proof.
  destruct v as [s|]; simpl; [|discriminate].
  intros H. exists s. split; [reflexivity|].
  intros ->. discriminate.
Qed.

Lemma truthy_number_Some (v : option Z) :
  truthy_number v = true -> exists n, v = Some n /\ n <> 0.
Proof.
  destruct v as [n|]; simpl; [|discriminate].
  intros H. exists n. split; [reflexivity|].
  intros ->. discriminate.
Qed.

Lemma neq_string_false (v : option string) (lit : string) :
  neq_string v lit = false <-> v = Some lit.
Proof.
  unfold neq_string, eq_string. destruct v as [s|]; simpl.
  - rewrite negb_false_iff, String.eqb_eq. split; congruence.
  - split; discriminate.
Qed.

Lemma indexOf_from_found (l : list string) (x : string) :
  forall i, 0 <= i -> In x l -> i <= indexOf_from l x i.
Proof.
  induction l as [|y l IH]; simpl; intros i Hi Hin; [contradiction|].
  destruct (String.eqb_spec y x) as [->|Hne]; [lia|].
  destruct Hin as [->|Hin]; [congruence|].
  specialize (IH (i + 1) ltac:(lia) Hin). lia.
Qed.

Lemma indexOf_from_absent (l : list string) (x : string) :
  forall i, ~ In x l -> indexOf_from l x i = -1.
Proof.
  induction l as [|y l IH]; simpl; intros i Hnin; [reflexivity|].
  destruct (String.eqb_spec y x) as [->|Hne]; [tauto|].
  apply IH. tauto.
Qed.

(** [indexOf] answers [-1] exactly for an element the array lacks. *)
Lemma indexOf_minus_one (l : list string) (x : string) :
  Z.eqb (indexOf l x) (-1) = true <-> ~ In x l.
Proof.
  unfold indexOf. rewrite Z.eqb_eq. split.
  - intros H Hin. pose proof (indexOf_from_found l x 0 ltac:(lia) Hin). lia.
  - apply indexOf_from_absent.
Qed.

(** ** Mobile access token *)

Section TokenProperties.

Variable decodeJwt : string -> Error + DecodedToken.

Local Abbreviation install := (setMobileAppAccessToken decodeJwt).
Local Abbreviation verify := (_verifyMobileAccessToken decodeJwt).

(** The checks of [setMobileAppAccessToken], read off in order for an
    instance that is logged on and a token that decodes to [d]. *)
Lemma install_logged_on (now : Z) (this : SteamCommunity) (sid : SteamID)
    (token : string) (d : DecodedToken) :
  steamID this = Some sid ->
  decodeJwt token = inr d ->
  install now this token =
    if negb (truthy_string (iss d)) || negb (truthy_string (sub d))
       || negb (truthy_object (aud d)) || negb (truthy_number (exp d))
    then (Throw err_not_a_token, this)
    else if eq_string (iss d) "steam" then (Throw err_refresh_token, this)
    else if neq_string (sub d) (getSteamID64 sid)
    then (Throw (err_wrong_account (sub d) (getSteamID64 sid)), this)
    else if lt_number (exp d) (floor_div_1000 now) then (Throw err_expired, this)
    else if Z.eqb (indexOf (or_empty_array (aud d)) "mobile") (-1)
    then (Throw err_wrong_platform, this)
    else (Normal, set_mobileAccessToken this (Some token)).
Proof.
  intros Hsid Hd. unfold setMobileAppAccessToken. rewrite Hsid, Hd.
  reflexivity.
Qed.

(** A call that throws leaves the instance as it was; a call that returns
    has stored the token it was given. *)
Lemma install_outcome (now : Z) (this : SteamCommunity) (token : string) :
  (exists e, install now this token = (Throw e, this))
  \/ install now this token = (Normal, set_mobileAccessToken this (Some token)).
Proof.
  unfold setMobileAppAccessToken.
  destruct (steamID this) as [sid|]; [|left; eauto].
  destruct (decodeJwt token) as [thrown|d]; [left; eauto|].
  repeat match goal with
         | |- context [if ?b then _ else _] => destruct b; [left; eauto|]
         end.
  right. reflexivity.
Qed.

(** A token is stored only if it decodes and every check passed. *)
Lemma install_accepts (now : Z) (this this' : SteamCommunity) (token : string) :
  install now this token = (Normal, this') ->
  exists sid d e audience,
    steamID this = Some sid
    /\ decodeJwt token = inr d
    /\ truthy_string (iss d) = true
    /\ eq_string (iss d) "steam" = false
    /\ sub d = Some (getSteamID64 sid)
    /\ exp d = Some e /\ e <> 0 /\ floor_div_1000 now <= e
    /\ aud d = Some audience /\ In "mobile" audience
    /\ this' = set_mobileAccessToken this (Some token).
Proof.
  unfold setMobileAppAccessToken.
  destruct (steamID this) as [sid|]; [|discriminate].
  destruct (decodeJwt token) as [thrown|d]; [discriminate|].
  destruct (truthy_string (iss d)) eqn:Hiss; [|discriminate].
  destruct (truthy_string (sub d)) eqn:Hsub; [|discriminate].
  destruct (aud d) as [audience|] eqn:Haud; [|discriminate].
  destruct (truthy_number (exp d)) eqn:Hexp; [|discriminate].
  simpl.
  destruct (eq_string (iss d) "steam") eqn:Hsteam; [discriminate|].
  destruct (neq_string (sub d) (getSteamID64 sid)) eqn:Hne; [discriminate|].
  apply neq_string_false in Hne.
  apply truthy_number_Some in Hexp. destruct Hexp as (e & He & He0).
  rewrite He. simpl.
  destruct (Z.ltb_spec e (floor_div_1000 now)) as [Hlt|Hge]; [discriminate|].
  destruct (Z.eqb (indexOf audience "mobile") (-1)) eqn:Hidx; [discriminate|].
  intros H. injection H as <-.
  exists sid, d, e, audience. repeat split; try assumption.
  destruct (in_dec string_dec "mobile" audience) as [Hin|Hnin]; [exact Hin|].
  apply indexOf_minus_one in Hnin. congruence.
Qed.

(** What [_verifyMobileAccessToken] does to a stored, truthy token that
    decodes to [d] when the instance is logged on. *)
Lemma verify_logged_on (now : Z) (this : SteamCommunity) (sid : SteamID)
    (token : string) (d : DecodedToken) :
  mobileAccessToken this = Some token -> token <> "" ->
  decodeJwt token = inr d ->
  steamID this = Some sid ->
  verify now this =
    (Normal,
     if neq_string (sub d) (getSteamID64 sid)
        || lt_number (exp d) (floor_div_1000 now)
     then set_mobileAccessToken this None
     else this).
Proof.
  intros Htok Hne Hd Hsid. unfold _verifyMobileAccessToken.
  rewrite Htok, Hd, Hsid. simpl.
  destruct (String.eqb_spec token "") as [->|_]; [congruence|]. simpl.
  destruct (neq_string _ _ || lt_number _ _); reflexivity.
Qed.

Lemma verify_no_token (now : Z) (this : SteamCommunity) :
  truthy_string (mobileAccessToken this) = false ->
  verify now this = (Normal, this).
Proof.
  unfold _verifyMobileAccessToken.
  destruct (mobileAccessToken this) as [token|]; [|reflexivity].
  intros ->. reflexivity.
Qed.

(** [_verifyMobileAccessToken] leaves [steamID] alone and the token as
    it was or deleted. *)
Lemma verify_frame (now : Z) (this : SteamCommunity) :
  steamID (snd (verify now this)) = steamID this
  /\ (mobileAccessToken (snd (verify now this)) = mobileAccessToken this
      \/ mobileAccessToken (snd (verify now this)) = None).
Proof.
  unfold _verifyMobileAccessToken.
  destruct (mobileAccessToken this) as [stored|] eqn:Hstored;
    [|simpl; rewrite Hstored; auto].
  destruct (negb (truthy_string (Some stored)));
    [simpl; rewrite Hstored; auto|].
  destruct (decodeJwt stored) as [thrown|d]; [simpl; rewrite Hstored; auto|].
  destruct (steamID this) as [sid|] eqn:Hsid;
    [|simpl; rewrite Hstored, Hsid; auto].
  cbv zeta. destruct (neq_string _ _ || lt_number _ _); simpl;
    rewrite ?Hstored, ?Hsid; auto.
Qed.

(** On a state the operations produce, a stored, truthy token decodes and
    somebody is logged on: [setMobileAppAccessToken] has decoded the
    token and checked [steamID] before storing it. *)
Lemma reachable_stored_token (this : SteamCommunity) :
  Reachable decodeJwt this ->
  forall token, mobileAccessToken this = Some token -> token <> "" ->
    exists sid d, steamID this = Some sid /\ decodeJwt token = inr d.
Proof.
  induction 1 as [|this sid _ IH|this now token' _ IH|this now _ IH];
    intros token Htok Hne.
  - discriminate.
  - simpl in Htok. destruct (IH token Htok Hne) as (_ & d & _ & Hd).
    exists sid, d. auto.
  - destruct (install_outcome now this token') as [[e H]|H]; rewrite H in *.
    + simpl in *. exact (IH token Htok Hne).
    + assert (Hacc := H). apply install_accepts in Hacc.
      destruct Hacc as (sid & d & _ & _ & Hsid & Hd & _).
      simpl in Htok. injection Htok as <-. exists sid, d. auto.
  - destruct (verify_frame now this) as [Hid [Hsame|Hnone]].
    + rewrite Hsame in Htok. rewrite Hid. exact (IH token Htok Hne).
    + rewrite Hnone in Htok. discriminate.
Qed.

(** C10: in a session that is logged on, a token whose decoded form has
    one of its four claims falsy -- missing, an empty string, or an expiry
    of 0 -- is refused with 'Provided value is not a valid Steam access
    token', whatever the other claims say; the check specific to the
    claim is never reached. *)
Theorem install_falsy_claim_is_malformed (now : Z) (this : SteamCommunity)
    (sid : SteamID) (token : string) (d : DecodedToken) :
  steamID this = Some sid ->
  decodeJwt token = inr d ->
  truthy_string (iss d) = false
  \/ truthy_string (sub d) = false
  \/ truthy_object (aud d) = false
  \/ truthy_number (exp d) = false ->
  install now this token = (Throw err_not_a_token, this).
Proof.
  intros Hsid Hd Hfalsy. rewrite (install_logged_on now this sid token d Hsid Hd).
  destruct Hfalsy as [H|[H|[H|H]]]; rewrite H; simpl;
    rewrite ?orb_true_r; reflexivity.
Qed.

(** C2, amended: for a token whose decoded claims are all truthy, whose
    issuer is not "steam" and whose subject is the account logged on, the
    call throws 'Provided token is expired' exactly when the expiry is
    below the clock in whole seconds.  An expiry equal to the clock is not
    expired: the call then goes on to the audience check, and stores the
    token if that passes. *)
Theorem install_expiry_boundary (now : Z) (this : SteamCommunity)
    (sid : SteamID) (token : string) (d : DecodedToken) (e : Z) :
  steamID this = Some sid ->
  decodeJwt token = inr d ->
  truthy_string (iss d) = true ->
  truthy_string (sub d) = true ->
  truthy_object (aud d) = true ->
  truthy_number (exp d) = true ->
  eq_string (iss d) "steam" = false ->
  sub d = Some (getSteamID64 sid) ->
  exp d = Some e ->
  (e < floor_div_1000 now ->
     install now this token = (Throw err_expired, this))
  /\ (floor_div_1000 now <= e ->
        install now this token =
          if Z.eqb (indexOf (or_empty_array (aud d)) "mobile") (-1)
          then (Throw err_wrong_platform, this)
          else (Normal, set_mobileAccessToken this (Some token)))
  /\ (fst (install now this token) = Normal -> floor_div_1000 now <= e).
Proof.
  intros Hsid Hd Hiss Hsub Haud Hexp Hsteam Hown He.
  rewrite (install_logged_on now this sid token d Hsid Hd).
  rewrite Hiss, Hsub, Haud, Hexp, Hsteam. simpl.
  apply neq_string_false in Hown. rewrite Hown, He. simpl.
  destruct (Z.ltb_spec e (floor_div_1000 now)) as [Hlt|Hge].
  - split; [|split]; intros H; [reflexivity|lia|discriminate].
  - split; [|split]; intros H; [lia|reflexivity|exact Hge].
Qed.

(** C5, amended: a token that passes the presence, issuer, subject and
    expiry checks and whose audience lacks "mobile" is refused with
    'Provided token is not valid for MobileApp platform type'.  A token
    with no audience at all never gets there: it is refused as not a valid
    Steam access token. *)
Theorem install_audience_check (now : Z) (this : SteamCommunity)
    (sid : SteamID) (token : string) (d : DecodedToken) :
  steamID this = Some sid ->
  decodeJwt token = inr d ->
  (aud d = None ->
     install now this token = (Throw err_not_a_token, this))
  /\ (forall audience e,
        truthy_string (iss d) = true ->
        eq_string (iss d) "steam" = false ->
        truthy_string (sub d) = true ->
        sub d = Some (getSteamID64 sid) ->
        exp d = Some e -> e <> 0 -> floor_div_1000 now <= e ->
        aud d = Some audience ->
        ~ In "mobile" audience ->
        install now this token = (Throw err_wrong_platform, this)).
Proof.
  intros Hsid Hd. split.
  - intros Haud. rewrite (install_logged_on now this sid token d Hsid Hd).
    rewrite Haud. simpl. rewrite orb_true_r. reflexivity.
  - intros audience e Hiss Hsteam Hsub Hown He He0 Hge Haud Hnin.
    rewrite (install_logged_on now this sid token d Hsid Hd).
    rewrite Hiss, Hsub, Haud, He, Hsteam. simpl.
    apply neq_string_false in Hown. rewrite Hown.
    destruct (Z.eqb_spec e 0) as [|_]; [contradiction|]. simpl.
    destruct (Z.ltb_spec e (floor_div_1000 now)) as [Hlt|_]; [lia|].
    apply indexOf_minus_one in Hnin. rewrite Hnin. reflexivity.
Qed.

(** C3: a call of [setMobileAppAccessToken] that returns leaves a token
    whose subject is the account logged on; a call for a token whose
    subject is not that account throws and leaves the instance as it was,
    so the token offered is not stored; either way the invariant survives
    the call.  A call of [_verifyMobileAccessToken] that returns leaves no
    token or one whose subject is the account logged on, and it deletes a
    stored token whose subject is another account. *)
Theorem session_token_matches_identity (now : Z) (this : SteamCommunity)
    (token : string) :
  (forall this', install now this token = (Normal, this') ->
     token_belongs_to_identity decodeJwt this' = true)
  /\ (~ (exists sid d, steamID this = Some sid
                       /\ decodeJwt token = inr d
                       /\ sub d = Some (getSteamID64 sid)) ->
      exists e, install now this token = (Throw e, this))
  /\ (token_belongs_to_identity decodeJwt this = true ->
      token_belongs_to_identity decodeJwt (snd (install now this token)) = true)
  /\ (forall this', verify now this = (Normal, this') ->
        token_belongs_to_identity decodeJwt this' = true)
  /\ (forall sid stored d,
        steamID this = Some sid ->
        mobileAccessToken this = Some stored -> stored <> "" ->
        decodeJwt stored = inr d ->
        sub d <> Some (getSteamID64 sid) ->
        verify now this = (Normal, set_mobileAccessToken this None)).
Proof.
  assert (Hinstall : forall this', install now this token = (Normal, this') ->
            token_belongs_to_identity decodeJwt this' = true).
  { intros this' H. apply install_accepts in H.
    destruct H as (sid & d & e & audience & Hsid & Hd & _ & _ & Hown & _ & _
                   & _ & _ & _ & ->).
    unfold token_belongs_to_identity. simpl. rewrite Hsid, Hd.
    destruct (String.eqb token ""); simpl; [reflexivity|].
    rewrite Hown. simpl. apply String.eqb_refl. }
  split; [exact Hinstall|]. split; [|split; [|split]].
  - intros Hno. destruct (install_outcome now this token) as [H|H]; [exact H|].
    exfalso. apply Hno. apply install_accepts in H.
    destruct H as (sid & d & e & audience & Hsid & Hd & _ & _ & Hown & _).
    eauto.
  - intros Hinv. destruct (install_outcome now this token) as [[e H]|H].
    + rewrite H. exact Hinv.
    + rewrite H. apply (Hinstall _ H).
  - unfold _verifyMobileAccessToken, token_belongs_to_identity.
    intros this'. destruct (mobileAccessToken this) as [stored|] eqn:Hstored.
    + simpl. destruct (String.eqb stored "") eqn:Hempty; simpl.
      * intros H. injection H as <-. rewrite Hstored. simpl.
        rewrite Hempty. reflexivity.
      * destruct (decodeJwt stored) as [thrown|d] eqn:Hd; [discriminate|].
        destruct (steamID this) as [sid|] eqn:Hsid; [|discriminate].
        unfold neq_string.
        destruct (eq_string (sub d) (getSteamID64 sid)) eqn:Heq; simpl.
        -- destruct (lt_number _ _); intros H; injection H as <-; simpl;
             [reflexivity|].
           rewrite Hstored. simpl. rewrite Hempty, Hd, Hsid. exact Heq.
        -- intros H. injection H as <-. reflexivity.
    + intros H. injection H as <-. rewrite Hstored. reflexivity.
  - intros sid stored d Hsid Hstored Hne Hd Hother.
    rewrite (verify_logged_on now this sid stored d Hstored Hne Hd Hsid).
    destruct (neq_string (sub d) (getSteamID64 sid)) eqn:Hneq.
    + reflexivity.
    + apply neq_string_false in Hneq. contradiction.
Qed.

(** C4: in every state of the session that its operations produce,
    [_verifyMobileAccessToken] returns without throwing.  It does nothing
    when no token is stored.  Otherwise the stored token decodes and
    somebody is logged on, and the call deletes the stored token exactly
    when its subject is not the account logged on or its expiry is below
    the clock in whole seconds, and changes nothing else. *)
Theorem verify_never_throws (now : Z) (this : SteamCommunity) :
  Reachable decodeJwt this ->
  fst (verify now this) = Normal
  /\ (truthy_string (mobileAccessToken this) = false ->
        verify now this = (Normal, this))
  /\ (forall token,
        mobileAccessToken this = Some token -> token <> "" ->
        exists sid d,
          steamID this = Some sid
          /\ decodeJwt token = inr d
          /\ (neq_string (sub d) (getSteamID64 sid)
              || lt_number (exp d) (floor_div_1000 now) = true ->
              verify now this = (Normal, set_mobileAccessToken this None))
          /\ (neq_string (sub d) (getSteamID64 sid)
              || lt_number (exp d) (floor_div_1000 now) = false ->
              verify now this = (Normal, this))).
Proof.
  intros Hreach.
  assert (Hstored := reachable_stored_token this Hreach).
  split; [|split].
  - destruct (truthy_string (mobileAccessToken this)) eqn:Htruthy.
    + apply truthy_string_Some in Htruthy.
      destruct Htruthy as (token & Htok & Hne).
      destruct (Hstored token Htok Hne) as (sid & d & Hsid & Hd).
      rewrite (verify_logged_on now this sid token d Htok Hne Hd Hsid).
      reflexivity.
    + rewrite (verify_no_token now this Htruthy). reflexivity.
  - apply verify_no_token.
  - intros token Htok Hne.
    destruct (Hstored token Htok Hne) as (sid & d & Hsid & Hd).
    exists sid, d. split; [exact Hsid|]. split; [exact Hd|].
    rewrite (verify_logged_on now this sid token d Htok Hne Hd Hsid).
    split; intros ->; reflexivity.
Qed.

End TokenProperties.

(** ** Web API key provisioning *)

Section KeyProperties.

Variable X : Externals.
Variable W : Type.
Variable net : Network W.

Local Abbreviation create := (createWebApiKey X).
Local Abbreviation registration := (requestkey_options X).

Lemma createWebApiKey_fuel_S (n : nat) (options : CreateApiKeyOptions) :
  createWebApiKey_fuel X (S n) options =
    if negb (truthy_string (domain options))
    then Callback (inl err_domain_required)
    else HttpRequestPost (registration options) None
           (requestkey_callback X (createWebApiKey_fuel X n) options).
Proof. reflexivity. Qed.

Lemma run_HttpRequestPost (R : Type) (o : PostOptions) (s : option string)
    (k : PostReply -> Async R) (w w' : W) (reply : PostReply) :
  httpRequestPost net o s w = (reply, w') ->
  run net (HttpRequestPost o s k) w = after (EvPost o s) (run net (k reply) w').
Proof. intros H. simpl. rewrite H. reflexivity. Qed.

Lemma run_AcceptConfirmationForObject (R : Type) (i : Secret)
    (o : option string) (k : option Error -> Async R) (w w' : W)
    (err : option Error) :
  acceptConfirmationForObject net i o w = (err, w') ->
  run net (AcceptConfirmationForObject i o k) w
  = after (EvAccept i o) (run net (k err) w').
Proof. intros H. simpl. rewrite H. reflexivity. Qed.

(** Without a secret the callback never calls [createWebApiKey]. *)
Lemma requestkey_callback_without_secret
    (self1 self2 : CreateApiKeyOptions -> Async (Error + CreateApiKeyResponse))
    (options : CreateApiKeyOptions) (reply : PostReply) :
  truthy_secret (identitySecret options) = false ->
  requestkey_callback X self1 options reply
  = requestkey_callback X self2 options reply.
Proof.
  intros H. unfold requestkey_callback.
  destruct reply as [err|[res body]]; [reflexivity|].
  destruct (Z.eqb (success body) (EResult_OK X)); [reflexivity|].
  destruct (Z.eqb (success body) (EResult_Pending X)); [|reflexivity].
  destruct (identitySecret options) as [secret|]; [|reflexivity].
  rewrite H. reflexivity.
Qed.

Lemma run_without_secret (n : nat) (options : CreateApiKeyOptions) (w : W) :
  truthy_secret (identitySecret options) = false ->
  run net (createWebApiKey_fuel X (S n) options) w
  = run net (createWebApiKey_fuel X 1 options) w.
Proof.
  intros H. rewrite !createWebApiKey_fuel_S.
  destruct (negb (truthy_string (domain options))); [reflexivity|].
  destruct (httpRequestPost net (registration options) None w)
    as [reply w'] eqn:Hpost.
  rewrite !(run_HttpRequestPost _ _ _ _ _ _ _ Hpost).
  rewrite (requestkey_callback_without_secret
             (createWebApiKey_fuel X n) (createWebApiKey_fuel X 0) _ _ H).
  reflexivity.
Qed.

(** The call a call makes to itself passes [finalizeOptions], which has no
    [identitySecret]: more fuel than two changes nothing. *)
Lemma run_fuel_enough (n : nat) (options : CreateApiKeyOptions) (w : W) :
  run net (createWebApiKey_fuel X (S (S n)) options) w = run net (create options) w.
Proof.
  unfold createWebApiKey.
  rewrite (createWebApiKey_fuel_S (S n)), (createWebApiKey_fuel_S 1).
  destruct (negb (truthy_string (domain options))); [reflexivity|].
  destruct (httpRequestPost net (registration options) None w)
    as [reply w'] eqn:Hpost.
  rewrite !(run_HttpRequestPost _ _ _ _ _ _ _ Hpost).
  apply (f_equal (after _)).
  unfold requestkey_callback.
  destruct reply as [err|[res body]]; [reflexivity|].
  destruct (Z.eqb (success body) (EResult_OK X)); [reflexivity|].
  destruct (Z.eqb (success body) (EResult_Pending X)); [|reflexivity].
  destruct (identitySecret options) as [secret|]; [|reflexivity].
  destruct (truthy_secret (Some secret)); [|reflexivity].
  simpl run.
  destruct (acceptConfirmationForObject net secret _ w') as [[e|] w''];
    [reflexivity|].
  apply (f_equal (after _)).
  exact (run_without_secret n (finalize_options options body) w'' eq_refl).
Qed.

Lemma run_relay_lookup (w : W) :
  run net
    (bind (getWebApiKey X)
       (fun r =>
          match r with
          | inl err => Callback (inl err)
          | inr key => Callback (inr (Issued (Some key)))
          end)) w
  = map_received relay_lookup (run net (getWebApiKey X) w).
Proof.
  unfold getWebApiKey. simpl.
  destruct (httpRequest net _ _ w) as [[err|[response body]] w'];
    [reflexivity|].
  destruct (match_validated_email X body); [reflexivity|].
  destruct (match_authenticator_required X body); [reflexivity|].
  destruct (match_access_denied X body); [reflexivity|].
  destruct (match_key X body); reflexivity.
Qed.

(** [getWebApiKey] always calls back. *)
Lemma getWebApiKey_calls_back (w : W) :
  exists r, received (run net (getWebApiKey X) w) = Some r.
Proof.
  unfold getWebApiKey. simpl.
  destruct (httpRequest net _ _ w) as [[err|[response body]] w'];
    [simpl; eauto|].
  destruct (match_validated_email X body); [simpl; eauto|].
  destruct (match_authenticator_required X body); [simpl; eauto|].
  destruct (match_access_denied X body); [simpl; eauto|].
  destruct (match_key X body); simpl; eauto.
Qed.

Lemma run_create_registered (options : CreateApiKeyOptions) (w w1 : W)
    (reply : PostReply) :
  truthy_string (domain options) = true ->
  httpRequestPost net (registration options) None w = (reply, w1) ->
  run net (create options) w
  = after (EvPost (registration options) None)
      (run net (requestkey_callback X (createWebApiKey_fuel X 1) options reply) w1).
Proof.
  intros Hdomain Hpost. unfold createWebApiKey.
  rewrite createWebApiKey_fuel_S, Hdomain. simpl negb. cbv iota.
  apply (run_HttpRequestPost _ _ _ _ _ _ _ Hpost).
Qed.

(** C9: with [options.domain] missing or empty the call is over at once:
    it calls back with the error 'Passing a domain is required to register
    an API key' and makes no request, so nothing is sent and the world is
    as it was. *)
Theorem create_requires_domain (options : CreateApiKeyOptions) :
  domain options = None \/ domain options = Some "" ->
  create options = Callback (inl err_domain_required)
  /\ forall w,
       run net (create options) w
       = {| received := Some (inl err_domain_required); world := w; trace := [] |}.
Proof.
  intros Hdomain.
  assert (H : create options = Callback (inl err_domain_required)).
  { unfold createWebApiKey. rewrite createWebApiKey_fuel_S.
    destruct Hdomain as [-> | ->]; reflexivity. }
  split; [exact H|]. intros w. rewrite H. reflexivity.
Qed.

(** C6: when the registration call answers [Pending] and the options carry
    no (truthy) [identitySecret], the call calls back without an error,
    with [confirmationRequired] and [finalizeOptions] of the same domain
    whose [requestID] is the [request_id] of the answer, or the
    [requestID] of the options when the answer has none; the registration
    call is the only request made. *)
Theorem create_pending_without_secret (options : CreateApiKeyOptions)
    (w w1 : W) (res : HttpResponse) (body : RequestKeyBody) :
  truthy_string (domain options) = true ->
  httpRequestPost net (registration options) None w
    = (inr (res, body), w1) ->
  success body = EResult_Pending X ->
  EResult_Pending X <> EResult_OK X ->
  truthy_secret (identitySecret options) = false ->
  exists resume,
    run net (create options) w
    = {| received := Some (inr (PendingConfirmation resume)); world := w1;
         trace := [EvPost (registration options) None] |}
    /\ domain resume = domain options
    /\ (truthy_string (request_id body) = true ->
        requestID resume = request_id body)
    /\ (truthy_string (request_id body) = false ->
        requestID resume = requestID options).
Proof.
  intros Hdomain Hpost Hpending Hcodes Hsecret.
  exists (finalize_options options body).
  rewrite (run_create_registered options w w1 _ Hdomain Hpost).
  unfold requestkey_callback. rewrite Hpending.
  destruct (Z.eqb_spec (EResult_Pending X) (EResult_OK X)) as [|_];
    [contradiction|].
  rewrite Z.eqb_refl.
  split.
  - destruct (identitySecret options) as [secret|]; [rewrite Hsecret|];
      reflexivity.
  - simpl. unfold or_string.
    split; [reflexivity|]. split; intros ->; reflexivity.
Qed.

(** C7: when the registration call answers [OK] with a key, the call
    calls back with exactly that key; when the answer has no key, it calls
    back with what [getWebApiKey] called back with -- the key found there
    as [apiKey], or the very error of the lookup. *)
Theorem create_on_OK (options : CreateApiKeyOptions) (w w1 : W)
    (res : HttpResponse) (body : RequestKeyBody) :
  truthy_string (domain options) = true ->
  httpRequestPost net (registration options) None w
    = (inr (res, body), w1) ->
  success body = EResult_OK X ->
  (forall key, api_key body = Some key -> key <> "" ->
     run net (create options) w
     = {| received := Some (inr (Issued (Some key))); world := w1;
          trace := [EvPost (registration options) None] |})
  /\ (truthy_string (api_key body) = false ->
      run net (create options) w
      = after (EvPost (registration options) None)
          (map_received relay_lookup (run net (getWebApiKey X) w1))
      /\ (forall key,
            received (run net (getWebApiKey X) w1) = Some (inr key) ->
            received (run net (create options) w) = Some (inr (Issued (Some key))))
      /\ (forall err,
            received (run net (getWebApiKey X) w1) = Some (inl err) ->
            received (run net (create options) w) = Some (inl err))).
Proof.
  intros Hdomain Hpost Hok.
  rewrite (run_create_registered options w w1 _ Hdomain Hpost).
  unfold requestkey_callback. rewrite Hok, Z.eqb_refl.
  split.
  - intros key Hkey Hne. rewrite Hkey. simpl.
    destruct (String.eqb_spec key "") as [|_]; [contradiction|]. reflexivity.
  - intros Hnokey. rewrite Hnokey, run_relay_lookup.
    split; [reflexivity|].
    split; [intros key Hfound|intros err Hfailed];
      unfold after, map_received; cbn [received];
      [rewrite Hfound|rewrite Hfailed]; reflexivity.
Qed.

(** What the code does when the registration call answers [Pending] and
    the options carry a secret: it asks for the confirmation to be
    accepted.  If that fails, it calls back with the error it was given.
    If that succeeds, it goes on as a call of [createWebApiKey] on
    [finalizeOptions], which has the domain and the request id and no
    secret: a [Pending] answer to that second call is not confirmed again
    but handed to the caller as [confirmationRequired]. *)
Theorem create_pending_with_secret (options : CreateApiKeyOptions)
    (w w1 : W) (res : HttpResponse) (body : RequestKeyBody) (secret : Secret) :
  truthy_string (domain options) = true ->
  httpRequestPost net (registration options) None w
    = (inr (res, body), w1) ->
  success body = EResult_Pending X ->
  EResult_Pending X <> EResult_OK X ->
  identitySecret options = Some secret ->
  truthy_secret (Some secret) = true ->
  identitySecret (finalize_options options body) = None
  /\ (forall w2,
        acceptConfirmationForObject net secret
          (requestID (finalize_options options body)) w1 = (None, w2) ->
        run net (create options) w
        = after (EvPost (registration options) None)
            (after (EvAccept secret (requestID (finalize_options options body)))
               (run net (create (finalize_options options body)) w2)))
  /\ (forall e w2,
        acceptConfirmationForObject net secret
          (requestID (finalize_options options body)) w1 = (Some e, w2) ->
        run net (create options) w
        = {| received := Some (inl e); world := w2;
             trace := [EvPost (registration options) None;
                       EvAccept secret (requestID (finalize_options options body))] |})
  /\ (forall w2 w3 res' body',
        httpRequestPost net (registration (finalize_options options body))
          None w2 = (inr (res', body'), w3) ->
        success body' = EResult_Pending X ->
        run net (create (finalize_options options body)) w2
        = {| received :=
               Some (inr (PendingConfirmation
                            (finalize_options (finalize_options options body) body')));
             world := w3;
             trace := [EvPost (registration (finalize_options options body))
                         None] |}).
Proof.
  intros Hdomain Hpost Hpending Hcodes Hsecret Htruthy.
  split; [reflexivity|].
  assert (Hrun : forall err w2,
            acceptConfirmationForObject net secret
              (requestID (finalize_options options body)) w1 = (err, w2) ->
            run net (create options) w
            = after (EvPost (registration options) None)
                (after (EvAccept secret (requestID (finalize_options options body)))
                   (run net
                      match err with
                      | Some e => Callback (inl e)
                      | None => createWebApiKey_fuel X 1 (finalize_options options body)
                      end w2))).
  { intros err w2 Haccept.
    rewrite (run_create_registered options w w1 _ Hdomain Hpost).
    unfold requestkey_callback. rewrite Hpending.
    destruct (Z.eqb_spec (EResult_Pending X) (EResult_OK X)) as [|_];
      [contradiction|].
    rewrite Z.eqb_refl, Hsecret, Htruthy. cbv zeta.
    rewrite (run_AcceptConfirmationForObject _ _ _ _ _ _ _ Haccept).
    reflexivity. }
  split; [|split].
  - intros w2 Haccept. rewrite (Hrun None w2 Haccept).
    unfold createWebApiKey.
    rewrite (run_without_secret 1 (finalize_options options body) w2 eq_refl).
    reflexivity.
  - intros e w2 Haccept. rewrite (Hrun (Some e) w2 Haccept). reflexivity.
  - intros w2 w3 res' body' Hpost' Hpending'.
    rewrite (run_create_registered (finalize_options options body) w2 w3 _
               Hdomain Hpost').
    unfold requestkey_callback. rewrite Hpending'.
    destruct (Z.eqb_spec (EResult_Pending X) (EResult_OK X)) as [|_];
      [contradiction|].
    rewrite Z.eqb_refl. reflexivity.
Qed.

(** The callback reads [success], [api_key] and [request_id] of the
    answer and nothing else. *)
Lemma requestkey_callback_reads
    (self : CreateApiKeyOptions -> Async (Error + CreateApiKeyResponse))
    (options : CreateApiKeyOptions) (res : HttpResponse)
    (body1 body2 : RequestKeyBody) :
  success body1 = success body2 ->
  api_key body1 = api_key body2 ->
  request_id body1 = request_id body2 ->
  requestkey_callback X self options (inr (res, body1))
  = requestkey_callback X self options (inr (res, body2)).
Proof.
  intros Hsuccess Hkey Hid. unfold requestkey_callback, finalize_options.
  rewrite Hsuccess, Hkey, Hid. reflexivity.
Qed.

(** C8: two answers of the registration call that agree on [success],
    [api_key] and [request_id] are handled alike, whatever their
    [requires_confirmation]: the callback goes on in the same way, and so
    every run from there makes the same requests and calls back with the
    same result. *)
Theorem result_code_alone_decides
    (self : CreateApiKeyOptions -> Async (Error + CreateApiKeyResponse))
    (options : CreateApiKeyOptions) (res : HttpResponse)
    (body1 body2 : RequestKeyBody) :
  success body1 = success body2 ->
  api_key body1 = api_key body2 ->
  request_id body1 = request_id body2 ->
  requestkey_callback X self options (inr (res, body1))
  = requestkey_callback X self options (inr (res, body2))
  /\ forall w1,
       run net (requestkey_callback X self options (inr (res, body1))) w1
       = run net (requestkey_callback X self options (inr (res, body2))) w1.
Proof.
  intros Hsuccess Hkey Hid.
  assert (H : requestkey_callback X self options (inr (res, body1))
              = requestkey_callback X self options (inr (res, body2))).
  { exact (requestkey_callback_reads self options res body1 body2
             Hsuccess Hkey Hid). }
  split; [exact H|]. intros w1. rewrite H. reflexivity.
Qed.

End KeyProperties.

(** The call always ends by calling back: a depth of two is never
    exceeded. *)
Theorem create_always_calls_back (X : Externals) (W : Type) (net : Network W)
    (options : CreateApiKeyOptions) (w : W) :
  exists r, received (run net (createWebApiKey X options) w) = Some r.
Proof.
  assert (Hlookup : forall w1, exists r,
            received (run net
              (bind (getWebApiKey X)
                 (fun r =>
                    match r with
                    | inl err => Callback (inl err)
                    | inr key => Callback (inr (Issued (Some key)))
                    end)) w1) = Some r).
  { intros w1. rewrite run_relay_lookup.
    destruct (getWebApiKey_calls_back X W net w1) as [r Hr].
    exists (relay_lookup r). unfold map_received. cbn [received].
    rewrite Hr. reflexivity. }
  assert (Hcallback : forall self options' reply w1,
            (forall o w2, truthy_secret (identitySecret o) = false ->
               exists r, received (run net (self o) w2) = Some r) ->
            exists r,
              received (run net (requestkey_callback X self options' reply) w1)
              = Some r).
  { intros self options' reply w1 Hself. unfold requestkey_callback.
    destruct reply as [err|[res body]]; [simpl; eauto|].
    destruct (Z.eqb (success body) (EResult_OK X)).
    - destruct (truthy_string (api_key body)); [simpl; eauto|apply Hlookup].
    - destruct (Z.eqb (success body) (EResult_Pending X)); [|simpl; eauto].
      destruct (identitySecret options') as [secret|]; [|simpl; eauto].
      destruct (truthy_secret (Some secret)); [|simpl; eauto].
      simpl run.
      destruct (acceptConfirmationForObject net secret _ w1) as [[e|] w2];
        [simpl; eauto|].
      apply (Hself (finalize_options options' body) w2 eq_refl). }
  assert (Hone : forall o w2, truthy_secret (identitySecret o) = false ->
            exists r, received (run net (createWebApiKey_fuel X 1 o) w2) = Some r).
  { intros o w2 Hsecret. rewrite createWebApiKey_fuel_S.
    destruct (negb (truthy_string (domain o))); [simpl; eauto|].
    destruct (httpRequestPost net (requestkey_options X o) None w2)
      as [reply w3] eqn:Hpost.
    rewrite (run_HttpRequestPost W net _ _ _ _ w2 w3 reply Hpost).
    rewrite (requestkey_callback_without_secret X
               (createWebApiKey_fuel X 0) (fun _ => Callback (inl err_domain_required))
               o reply Hsecret).
    unfold after. cbn [received].
    apply Hcallback. intros; simpl; eauto. }
  unfold createWebApiKey. rewrite createWebApiKey_fuel_S.
  destruct (negb (truthy_string (domain options))); [simpl; eauto|].
  destruct (httpRequestPost net (requestkey_options X options) None w)
    as [reply w1] eqn:Hpost.
  rewrite (run_HttpRequestPost W net _ _ _ _ w w1 reply Hpost).
  unfold after. cbn [received].
  apply Hcallback. exact Hone.
Qed.

(** Rewriting [requires_confirmation] in every answer of the server
    changes no run of [createWebApiKey]. *)
Theorem hint_is_ignored (X : Externals) (W : Type) (net : Network W)
    (hint : RequestKeyBody -> option Z) (fuel : nat) :
  forall (options : CreateApiKeyOptions) (w : W),
    run (with_hint hint net) (createWebApiKey_fuel X fuel options) w
    = run net (createWebApiKey_fuel X fuel options) w.
Proof.
  induction fuel as [|fuel IH]; intros options w; [reflexivity|].
  rewrite createWebApiKey_fuel_S.
  destruct (negb (truthy_string (domain options))); [reflexivity|].
  destruct (httpRequestPost net (requestkey_options X options) None w)
    as [reply w1] eqn:Hpost.
  rewrite (run_HttpRequestPost W net _ _ _ _ w w1 reply Hpost).
  destruct reply as [err|[res body]].
  { rewrite (run_HttpRequestPost W (with_hint hint net) _ _ _ _ w w1 (inl err));
      [reflexivity|].
    simpl. rewrite Hpost. reflexivity. }
  rewrite (run_HttpRequestPost W (with_hint hint net) _ _ _ _ w w1
             (inr (res, set_requires_confirmation body (hint body))));
    [|simpl; rewrite Hpost; reflexivity].
  apply (f_equal (after _)).
  rewrite (requestkey_callback_reads X (createWebApiKey_fuel X fuel) options res
             (set_requires_confirmation body (hint body)) body
             eq_refl eq_refl eq_refl).
  unfold requestkey_callback.
  destruct (Z.eqb (success body) (EResult_OK X)).
  - destruct (truthy_string (api_key body)); [reflexivity|].
    rewrite !run_relay_lookup. apply (f_equal (map_received relay_lookup)).
    unfold getWebApiKey. simpl.
    destruct (httpRequest net _ _ w1) as [[err|[response page]] w2];
      [reflexivity|].
    destruct (match_validated_email X page); [reflexivity|].
    destruct (match_authenticator_required X page); [reflexivity|].
    destruct (match_access_denied X page); [reflexivity|].
    destruct (match_key X page); reflexivity.
  - destruct (Z.eqb (success body) (EResult_Pending X)); [|reflexivity].
    destruct (identitySecret options) as [secret|]; [|reflexivity].
    destruct (truthy_secret (Some secret)); [|reflexivity].
    simpl run.
    destruct (acceptConfirmationForObject net secret _ w1) as [[e|] w2];
      [reflexivity|].
    apply (f_equal (after _)). apply IH.
Qed.

(** ** The properties on the sample sessions and servers *)

Import Samples.

(** An expiry of 0 is refused as a malformed token, not as an expired one. *)
Lemma install_falsy_claim_is_malformed_witness :
  steamID (logged_on_as alice None) = Some alice
  /\ decodeJwt "alice.mobile.epoch"
     = inr (claims "76561198000000001" (Some ["web"; "mobile"]) 0)
  /\ setMobileAppAccessToken decodeJwt clock (logged_on_as alice None)
       "alice.mobile.epoch"
     = (Throw err_not_a_token, logged_on_as alice None).
Proof.
  split; [reflexivity|]. split; [reflexivity|].
  apply (install_falsy_claim_is_malformed decodeJwt clock
           (logged_on_as alice None) alice "alice.mobile.epoch"
           (claims "76561198000000001" (Some ["web"; "mobile"]) 0)).
  - reflexivity.
  - reflexivity.
  - right. right. right. reflexivity.
Defined.

(** C2 as stated fails: at clock 1700000000.999 s a token that expires at
    1700000000 is stored, although its expiry is not above the clock in
    whole seconds. *)
Lemma install_accepts_expiry_equal_to_clock :
  decodeJwt "alice.mobile.expires-now"
  = inr (claims "76561198000000001" (Some ["web"; "mobile"]) 1700000000)
  /\ floor_div_1000 clock = 1700000000
  /\ setMobileAppAccessToken decodeJwt clock (logged_on_as alice None)
       "alice.mobile.expires-now"
     = (Normal, logged_on_as alice (Some "alice.mobile.expires-now")).
Proof. repeat split. Qed.

Lemma install_expiry_boundary_witness :
  setMobileAppAccessToken decodeJwt clock (logged_on_as alice None)
    "alice.mobile.expired"
  = (Throw err_expired, logged_on_as alice None).
Proof.
  apply (proj1 (install_expiry_boundary decodeJwt clock
                  (logged_on_as alice None) alice "alice.mobile.expired"
                  (claims "76561198000000001" (Some ["web"; "mobile"]) 1699999999)
                  1699999999 eq_refl eq_refl eq_refl eq_refl eq_refl eq_refl
                  eq_refl eq_refl eq_refl)).
  reflexivity.
Defined.

(** C5 as stated fails: a token with no audience is refused as not a valid
    Steam access token, not as one for another platform. *)
Lemma install_without_audience_is_malformed :
  decodeJwt "alice.no-audience.fresh"
  = inr (claims "76561198000000001" None 1700003600)
  /\ setMobileAppAccessToken decodeJwt clock (logged_on_as alice None)
       "alice.no-audience.fresh"
     = (Throw err_not_a_token, logged_on_as alice None)
  /\ err_not_a_token <> err_wrong_platform.
Proof. repeat split. discriminate. Qed.

Lemma install_audience_check_witness :
  setMobileAppAccessToken decodeJwt clock (logged_on_as alice None)
    "alice.web.fresh"
  = (Throw err_wrong_platform, logged_on_as alice None).
Proof.
  apply (proj2 (install_audience_check decodeJwt clock
                  (logged_on_as alice None) alice "alice.web.fresh"
                  (claims "76561198000000001" (Some ["web"]) 1700003600)
                  eq_refl eq_refl)
           ["web"] 1700003600 eq_refl eq_refl eq_refl eq_refl eq_refl).
  - discriminate.
  - discriminate.
  - reflexivity.
  - simpl. intros [H|[]]. discriminate H.
Defined.

(** Alice's token survives a check while Alice is logged on. *)
Lemma session_token_matches_identity_witness :
  token_belongs_to_identity decodeJwt
    (logged_on_as alice (Some "alice.mobile.fresh")) = true.
Proof.
  apply (proj1 (session_token_matches_identity decodeJwt clock
                  (logged_on_as alice None) "alice.mobile.fresh")).
  reflexivity.
Defined.

(** Outside the states the operations produce the check can throw: with a
    token stored and nobody logged on it throws a TypeError, and with a
    stored value that does not decode it throws what the decoder threw.
    The token stays in both cases. *)
Lemma verify_throws_when_not_logged_on :
  _verifyMobileAccessToken decodeJwt clock (logged_off (Some "alice.mobile.fresh"))
  = (Throw err_no_steamID, logged_off (Some "alice.mobile.fresh")).
Proof. reflexivity. Qed.

Lemma verify_throws_on_undecodable_token :
  _verifyMobileAccessToken decodeJwt clock (logged_on_as alice (Some "garbage"))
  = (Throw (new_Error "Invalid JWT"), logged_on_as alice (Some "garbage")).
Proof. reflexivity. Qed.

(** Alice logs on and stores her token, then Bob logs on: the token is
    dropped without an error. *)
Lemma verify_never_throws_witness :
  Reachable decodeJwt (logged_on_as bob (Some "alice.mobile.fresh"))
  /\ _verifyMobileAccessToken decodeJwt clock
       (logged_on_as bob (Some "alice.mobile.fresh"))
     = (Normal, logged_on_as bob None).
Proof.
  assert (Hreach : Reachable decodeJwt
                     (logged_on_as bob (Some "alice.mobile.fresh"))).
  { exact (@reach_log_on decodeJwt _ bob
             (@reach_install decodeJwt _ clock "alice.mobile.fresh"
                (@reach_log_on decodeJwt _ alice (reach_new decodeJwt)))). }
  split; [exact Hreach|].
  destruct (proj2 (proj2 (verify_never_throws decodeJwt clock
                            (logged_on_as bob (Some "alice.mobile.fresh")) Hreach))
              "alice.mobile.fresh" eq_refl)
    as (sid & d & Hsid & Hd & Hinvalid & _).
  - discriminate.
  - apply Hinvalid. injection Hsid as <-. injection Hd as <-. reflexivity.
Defined.

Lemma create_requires_domain_witness :
  run (server 0 None None)
    (createWebApiKey steam
       {| domain := Some ""; requestID := None; identitySecret := None |}) 0%nat
  = {| received := Some (inl err_domain_required); world := 0%nat; trace := [] |}.
Proof.
  apply (create_requires_domain steam nat (server 0 None None)).
  right. reflexivity.
Defined.

Lemma create_pending_without_secret_witness :
  exists resume,
    run (server 1 (Some "0123456789ABCDEF") None)
      (createWebApiKey steam manual) 0%nat
    = {| received := Some (inr (PendingConfirmation resume)); world := 1%nat;
         trace := [EvPost (requestkey_options steam manual) None] |}
    /\ domain resume = Some "example.com"
    /\ requestID resume = Some "4815162342".
Proof.
  assert (Hcodes : EResult_Pending steam <> EResult_OK steam) by discriminate.
  destruct (create_pending_without_secret steam nat
              (server 1 (Some "0123456789ABCDEF") None) manual 0%nat 1%nat
              {| statusCode := 200 |} (pending_body (Some 1))
              eq_refl eq_refl eq_refl Hcodes eq_refl)
    as (resume & Hrun & Hdomain & Hecho & _).
  exists resume. split; [exact Hrun|]. split; [exact Hdomain|].
  apply Hecho. reflexivity.
Defined.

Lemma create_on_OK_witness :
  run (server 0 (Some "0123456789ABCDEF") None)
    (createWebApiKey steam manual) 0%nat
  = {| received := Some (inr (Issued (Some "0123456789ABCDEF"))); world := 1%nat;
       trace := [EvPost (requestkey_options steam manual) None] |}.
Proof.
  apply (proj1 (create_on_OK steam nat
                  (server 0 (Some "0123456789ABCDEF") None)
                  manual 0%nat 1%nat {| statusCode := 200 |}
                  (ok_body (Some "0123456789ABCDEF")) eq_refl eq_refl eq_refl)).
  - reflexivity.
  - discriminate.
Defined.

(** C1, where the code departs from it: against a server that answers
    [Pending] twice, the call with a secret accepts one confirmation and
    then hands the second [Pending] to its caller as
    [confirmationRequired], although [identitySecret] was passed so that
    confirmations be accepted internally.  The call it makes to itself
    has lost the secret: a call on the resume request with the secret
    still attached accepts again and produces the key. *)
Lemma create_confirms_only_once :
  run (server 2 (Some "0123456789ABCDEF") None)
    (createWebApiKey steam automatic) 0%nat
  = {| received :=
         Some (inr (PendingConfirmation
                      {| domain := Some "example.com";
                         requestID := Some "4815162342";
                         identitySecret := None |}));
       world := 2%nat;
       trace :=
         [EvPost (requestkey_options steam automatic) None;
          EvAccept (SecretString "c2VjcmV0") (Some "4815162342");
          EvPost (requestkey_options steam
                    {| domain := Some "example.com";
                       requestID := Some "4815162342";
                       identitySecret := None |}) None] |}
  /\ received
       (run (server 2 (Some "0123456789ABCDEF") None)
          (createWebApiKey steam
             {| domain := Some "example.com";
                requestID := Some "4815162342";
                identitySecret := identitySecret automatic |}) 1%nat)
     = Some (inr (Issued (Some "0123456789ABCDEF")))
  /\ run (server 2 (Some "0123456789ABCDEF") None)
       (createWebApiKey steam automatic) 0%nat
     <> after (EvPost (requestkey_options steam automatic) None)
          (after (EvAccept (SecretString "c2VjcmV0") (Some "4815162342"))
             (run (server 2 (Some "0123456789ABCDEF") None)
                (createWebApiKey steam
                   {| domain := Some "example.com";
                      requestID := Some "4815162342";
                      identitySecret := identitySecret automatic |}) 1%nat)).
Proof.
  split; [reflexivity|]. split; [reflexivity|].
  vm_compute. discriminate.
Qed.

Lemma create_pending_with_secret_witness :
  run (server 1 (Some "0123456789ABCDEF") None)
    (createWebApiKey steam automatic) 0%nat
  = after (EvPost (requestkey_options steam automatic) None)
      (after (EvAccept (SecretString "c2VjcmV0") (Some "4815162342"))
         (run (server 1 (Some "0123456789ABCDEF") None)
            (createWebApiKey steam
               {| domain := Some "example.com";
                  requestID := Some "4815162342";
                  identitySecret := None |}) 1%nat)).
Proof.
  assert (Hcodes : EResult_Pending steam <> EResult_OK steam) by discriminate.
  apply (proj1 (proj2 (create_pending_with_secret steam nat
                         (server 1 (Some "0123456789ABCDEF") None) automatic
                         0%nat 1%nat {| statusCode := 200 |}
                         (pending_body (Some 1)) (SecretString "c2VjcmV0")
                         eq_refl eq_refl eq_refl Hcodes eq_refl eq_refl)) 1%nat).
  reflexivity.
Defined.

Lemma result_code_alone_decides_witness :
  requestkey_callback steam (createWebApiKey_fuel steam 1) automatic
    (inr ({| statusCode := 200 |}, pending_body (Some 1)))
  = requestkey_callback steam (createWebApiKey_fuel steam 1) automatic
      (inr ({| statusCode := 200 |}, pending_body None)).
Proof.
  apply (proj1 (result_code_alone_decides steam nat
                  (server 1 (Some "0123456789ABCDEF") None)
                  (createWebApiKey_fuel steam 1) automatic
                  {| statusCode := 200 |} (pending_body (Some 1))
                  (pending_body None) eq_refl eq_refl eq_refl)).
Defined.

(** * Further properties of the component *)

(** ** Mobile access token *)

Section TokenCoverage.

Variable decodeJwt : string -> Error + DecodedToken.

Local Abbreviation install := (setMobileAppAccessToken decodeJwt).
Local Abbreviation verify := (_verifyMobileAccessToken decodeJwt).

(** [setMobileAppAccessToken] returns exactly for a token that decodes
    and passes all six checks -- somebody is logged on, the four claims
    are truthy, the issuer is not "steam", the subject is the SteamID64
    logged on, the expiry is not below the clock in whole seconds, the
    audience has "mobile" -- and it then stores the raw token and changes
    nothing else. *)
Theorem install_accepts_iff (now : Z) (this this' : SteamCommunity)
    (token : string) :
  install now this token = (Normal, this')
  <-> exists sid d e audience,
        steamID this = Some sid
        /\ decodeJwt token = inr d
        /\ truthy_string (iss d) = true
        /\ eq_string (iss d) "steam" = false
        /\ getSteamID64 sid <> ""
        /\ sub d = Some (getSteamID64 sid)
        /\ exp d = Some e /\ e <> 0 /\ floor_div_1000 now <= e
        /\ aud d = Some audience /\ In "mobile" audience
        /\ this' = {| steamID := steamID this; mobileAccessToken := Some token |}.
Proof.
  split.
  - unfold setMobileAppAccessToken.
    destruct (steamID this) as [sid|] eqn:Hsid; [|discriminate].
    destruct (decodeJwt token) as [thrown|d]; [discriminate|].
    destruct (truthy_string (iss d)) eqn:Hiss; [|discriminate].
    destruct (truthy_string (sub d)) eqn:Hsub; [|discriminate].
    destruct (aud d) as [audience|] eqn:Haud; [|discriminate].
    destruct (truthy_number (exp d)) eqn:Hexp; [|discriminate].
    simpl.
    destruct (eq_string (iss d) "steam") eqn:Hsteam; [discriminate|].
    destruct (neq_string (sub d) (getSteamID64 sid)) eqn:Hne; [discriminate|].
    apply neq_string_false in Hne.
    apply truthy_number_Some in Hexp. destruct Hexp as (e & He & He0).
    rewrite He. simpl.
    destruct (Z.ltb_spec e (floor_div_1000 now)) as [Hlt|Hge]; [discriminate|].
    destruct (Z.eqb (indexOf audience "mobile") (-1)) eqn:Hidx; [discriminate|].
    intros H. injection H as <-.
    exists sid, d, e, audience.
    assert (Hid : getSteamID64 sid <> "").
    { rewrite Hne in Hsub. simpl in Hsub. intros Hempty. rewrite Hempty in Hsub.
      discriminate. }
    repeat (split; [first [assumption|reflexivity]|]).
    split; [|unfold set_mobileAccessToken; rewrite Hsid; reflexivity].
    destruct (in_dec string_dec "mobile" audience) as [Hin|Hnin]; [exact Hin|].
    apply indexOf_minus_one in Hnin. congruence.
  - intros (sid & d & e & audience & Hsid & Hd & Hiss & Hsteam & Hid & Hsub
            & He & He0 & Hge & Haud & Hin & ->).
    rewrite (install_logged_on decodeJwt now this sid token d Hsid Hd).
    rewrite Hiss, Hsteam, Hsub, He, Haud. simpl.
    destruct (String.eqb_spec (getSteamID64 sid) "") as [|_]; [contradiction|].
    destruct (Z.eqb_spec e 0) as [|_]; [contradiction|]. simpl.
    unfold neq_string. simpl. rewrite String.eqb_refl. simpl.
    destruct (Z.ltb_spec e (floor_div_1000 now)) as [|_]; [lia|].
    destruct (Z.eqb (indexOf audience "mobile") (-1)) eqn:Hidx.
    + apply indexOf_minus_one in Hidx. contradiction.
    + reflexivity.
Qed.

(** The rejections come in a fixed order.  With nobody logged on the call
    throws the log-on error whatever the token.  Logged on, a token that
    does not decode makes the call throw what the decoder threw.  A token
    whose claims are all truthy and whose issuer is "steam" is refused as
    a refresh token whatever its subject, expiry and audience; one with
    another issuer and the subject of another account is refused with a
    message that names both accounts, whatever its expiry and audience. *)
Theorem install_rejection_order (now : Z) (this : SteamCommunity)
    (token : string) :
  (steamID this = None ->
     install now this token = (Throw err_not_logged_on, this))
  /\ (forall sid thrown,
        steamID this = Some sid ->
        decodeJwt token = inl thrown ->
        install now this token = (Throw thrown, this))
  /\ (forall sid d,
        steamID this = Some sid ->
        decodeJwt token = inr d ->
        truthy_string (iss d) = true ->
        truthy_string (sub d) = true ->
        truthy_object (aud d) = true ->
        truthy_number (exp d) = true ->
        (eq_string (iss d) "steam" = true ->
           install now this token = (Throw err_refresh_token, this))
        /\ (eq_string (iss d) "steam" = false ->
            forall account,
              sub d = Some account ->
              account <> getSteamID64 sid ->
              install now this token
              = (Throw (new_Error
                          ("Provided token belongs to account " ++ account
                           ++ ", but we are logged into " ++ getSteamID64 sid)),
                 this))).
Proof.
  split; [|split].
  - intros Hnone. unfold setMobileAppAccessToken. rewrite Hnone. reflexivity.
  - intros sid thrown Hsid Hthrown. unfold setMobileAppAccessToken.
    rewrite Hsid, Hthrown. reflexivity.
  - intros sid d Hsid Hd Hiss Hsub Haud Hexp.
    rewrite (install_logged_on decodeJwt now this sid token d Hsid Hd).
    rewrite Hiss, Hsub, Haud, Hexp. simpl.
    split; intros Hsteam; rewrite Hsteam; [reflexivity|].
    intros account Haccount Hother. rewrite Haccount.
    unfold neq_string. simpl.
    destruct (String.eqb_spec account (getSteamID64 sid)) as [|_];
      [contradiction|].
    reflexivity.
Qed.

(** A token that [setMobileAppAccessToken] has just stored is kept by
    [_verifyMobileAccessToken] as long as the clock, in whole seconds, is
    not above its expiry, and is deleted without an error once it is. *)
Theorem install_then_verify (now now' : Z) (this this' : SteamCommunity)
    (token : string) (d : DecodedToken) (e : Z) :
  token <> "" ->
  install now this token = (Normal, this') ->
  decodeJwt token = inr d ->
  exp d = Some e ->
  (floor_div_1000 now' <= e -> verify now' this' = (Normal, this'))
  /\ (e < floor_div_1000 now' ->
      verify now' this'
      = (Normal, {| steamID := steamID this; mobileAccessToken := None |})).
Proof.
  intros Hne Hinstall Hd He.
  apply install_accepts in Hinstall.
  destruct Hinstall as (sid & d' & e' & audience & Hsid & Hd' & _ & _ & Hsub
                        & _ & _ & _ & _ & _ & ->).
  rewrite Hd in Hd'. injection Hd' as <-.
  unfold set_mobileAccessToken.
  rewrite (verify_logged_on decodeJwt now'
             {| steamID := steamID this; mobileAccessToken := Some token |}
             sid token d eq_refl Hne Hd Hsid).
  rewrite Hsub, He. unfold neq_string. simpl. rewrite String.eqb_refl. simpl.
  split; intros H; destruct (Z.ltb_spec e (floor_div_1000 now'));
    first [lia|reflexivity].
Qed.

(** [_verifyMobileAccessToken] only ever deletes the token: it leaves
    [steamID] alone, leaves the token as it was or deletes it, and a
    second call at the same clock reading ends as the first did and
    changes nothing more. *)
Theorem verify_only_deletes (now : Z) (this : SteamCommunity) :
  steamID (snd (verify now this)) = steamID this
  /\ (mobileAccessToken (snd (verify now this)) = mobileAccessToken this
      \/ mobileAccessToken (snd (verify now this)) = None)
  /\ verify now (snd (verify now this)) = verify now this.
Proof.
  unfold _verifyMobileAccessToken.
  destruct (mobileAccessToken this) as [token|] eqn:Htoken.
  - simpl. destruct (String.eqb token "") eqn:Hempty; simpl.
    + rewrite Htoken. simpl. rewrite Hempty. simpl. auto.
    + destruct (decodeJwt token) as [thrown|d] eqn:Hd.
      * simpl. rewrite Htoken. simpl. rewrite Hempty, Hd. auto.
      * destruct (steamID this) as [sid|] eqn:Hsid.
        -- destruct (neq_string (sub d) (getSteamID64 sid)
                     || lt_number (exp d) (floor_div_1000 now))
             eqn:Hinvalid; simpl.
           ++ auto.
           ++ rewrite Htoken. simpl. rewrite Hempty, Hd, Hsid. simpl.
              rewrite Hinvalid. auto.
        -- simpl. rewrite Htoken. simpl. rewrite Hempty, Hd, Hsid. auto.
  - simpl. rewrite Htoken. auto.
Qed.

(** Time only works against a token.  If the clock moves on, a token that
    the check deleted is deleted again, and a token that
    [setMobileAppAccessToken] accepts at the later reading is accepted at
    the earlier one. *)
Theorem later_clock_is_stricter (now now' : Z) (this : SteamCommunity)
    (token : string) :
  now <= now' ->
  (verify now this = (Normal, set_mobileAccessToken this None) ->
   verify now' this = (Normal, set_mobileAccessToken this None))
  /\ (fst (install now' this token) = Normal ->
      install now this token = install now' this token).
Proof.
  intros Hclock.
  assert (Hfloor : floor_div_1000 now <= floor_div_1000 now').
  { unfold floor_div_1000. apply Z.div_le_mono; lia. }
  split.
  - unfold _verifyMobileAccessToken.
    destruct (mobileAccessToken this) as [token'|] eqn:Htoken; [|auto].
    destruct (negb (truthy_string (Some token'))); [auto|].
    destruct (decodeJwt token') as [thrown|d]; [auto|].
    destruct (steamID this) as [sid|]; [|discriminate].
    cbv zeta.
    destruct (neq_string (sub d) (getSteamID64 sid)); simpl; [auto|].
    unfold lt_number. destruct (exp d) as [e|].
    + destruct (Z.ltb_spec e (floor_div_1000 now)) as [Hlt|Hge].
      * destruct (Z.ltb_spec e (floor_div_1000 now')); [auto|lia].
      * intros H. injection H as H. destruct this as [sid' tok'].
        simpl in *. unfold set_mobileAccessToken in H. simpl in H.
        injection H as H. congruence.
    + intros H. injection H as H. destruct this as [sid' tok'].
      simpl in *. unfold set_mobileAccessToken in H. simpl in H.
      injection H as H. congruence.
  - unfold setMobileAppAccessToken.
    destruct (steamID this) as [sid|]; [|reflexivity].
    destruct (decodeJwt token) as [thrown|d]; [reflexivity|].
    destruct (negb (truthy_string (iss d))
              || negb (truthy_string (sub d))
              || negb (truthy_object (aud d))
              || negb (truthy_number (exp d))); [reflexivity|].
    destruct (eq_string (iss d) "steam"); [reflexivity|].
    destruct (neq_string (sub d) (getSteamID64 sid)); [reflexivity|].
    unfold lt_number. destruct (exp d) as [e|]; [|reflexivity].
    destruct (Z.ltb_spec e (floor_div_1000 now')) as [Hlt|Hge];
      [discriminate|].
    destruct (Z.ltb_spec e (floor_div_1000 now)); [lia|reflexivity].
Qed.

End TokenCoverage.

(** ** Web API key provisioning *)

Section KeyCoverage.

Variable X : Externals.
Variable W : Type.
Variable net : Network W.

Local Abbreviation create := (createWebApiKey X).
Local Abbreviation registration := (requestkey_options X).
Local Abbreviation apikey_page :=
  {| get_uri := "https://steamcommunity.com/dev/apikey?l=english";
     get_followRedirect := false |}.

(** A run of [getWebApiKey] is one request for the key page. *)
Lemma run_getWebApiKey (w : W) :
  exists r,
    run net (getWebApiKey X) w
    = {| received := Some r;
         world := snd (httpRequest net apikey_page (Some "steamcommunity") w);
         trace := [EvGet apikey_page (Some "steamcommunity")] |}.
Proof.
  unfold getWebApiKey. simpl.
  destruct (httpRequest net _ _ w) as [[err|[response body]] w'];
    [eexists; reflexivity|].
  destruct (match_validated_email X body); [eexists; reflexivity|].
  destruct (match_authenticator_required X body); [eexists; reflexivity|].
  destruct (match_access_denied X body); [eexists; reflexivity|].
  destruct (match_key X body); eexists; reflexivity.
Qed.

(** [getWebApiKey] makes one request, for the key page and without
    following redirects.  It hands on a transport error as it is, and it
    calls back with a key exactly when the page shows none of the three
    notices -- no validated email, authenticator required, access denied
    -- and shows a key; a page with a notice fails even if it shows a key
    too. *)
Theorem getWebApiKey_outcome (w w' : W) (reply : GetReply) :
  httpRequest net apikey_page (Some "steamcommunity") w = (reply, w') ->
  world (run net (getWebApiKey X) w) = w'
  /\ trace (run net (getWebApiKey X) w) = [EvGet apikey_page (Some "steamcommunity")]
  /\ (forall err, reply = inl err ->
        received (run net (getWebApiKey X) w) = Some (inl err))
  /\ (forall response body key, reply = inr (response, body) ->
        (received (run net (getWebApiKey X) w) = Some (inr key)
         <-> match_validated_email X body = false
             /\ match_authenticator_required X body = false
             /\ match_access_denied X body = false
             /\ match_key X body = Some key)).
Proof.
  intros Hget. unfold getWebApiKey. simpl. rewrite Hget.
  destruct reply as [err|[response body]].
  - simpl. repeat split; try discriminate.
    intros err' H. injection H as <-. reflexivity.
  - destruct (match_validated_email X body) eqn:Hemail;
      destruct (match_authenticator_required X body) eqn:Hguard;
      destruct (match_access_denied X body) eqn:Hdenied;
      destruct (match_key X body) as [found|] eqn:Hkey; simpl;
      (split; [reflexivity|]; split; [reflexivity|]; split; [discriminate|]);
      intros response' body' key H; injection H as Hr Hb; subst response' body';
      rewrite ?Hemail, ?Hguard, ?Hdenied, ?Hkey;
      (split;
       [ intros H; try discriminate H; injection H as <-; auto
       | intros (A & B & C & D); try discriminate;
         injection D as <-; reflexivity ]).
Qed.

(** The two failures of the registration call.  A transport error is
    handed to the caller as it is; an answer whose [success] is neither
    [OK] nor [Pending] becomes [Helpers.eresultError] of that code.  In
    both cases the registration call is the only request made. *)
Theorem create_relays_failures (options : CreateApiKeyOptions) (w w1 : W)
    (reply : PostReply) :
  truthy_string (domain options) = true ->
  httpRequestPost net (registration options) None w = (reply, w1) ->
  (forall err, reply = inl err ->
     run net (create options) w
     = {| received := Some (inl err); world := w1;
          trace := [EvPost (registration options) None] |})
  /\ (forall res body, reply = inr (res, body) ->
        success body <> EResult_OK X ->
        success body <> EResult_Pending X ->
        run net (create options) w
        = {| received := Some (inl (eresultError X (success body))); world := w1;
             trace := [EvPost (registration options) None] |}).
Proof.
  intros Hdomain Hpost.
  rewrite (run_create_registered X W net options w w1 reply Hdomain Hpost).
  split.
  - intros err ->. reflexivity.
  - intros res body -> Hok Hpending. unfold requestkey_callback.
    destruct (Z.eqb_spec (success body) (EResult_OK X)) as [|_];
      [contradiction|].
    destruct (Z.eqb_spec (success body) (EResult_Pending X)) as [|_];
      [contradiction|].
    reflexivity.
Qed.

(** How the callback of the registration call can run: it calls back at
    once, or after the key lookup, or after a confirmation that failed, or
    it goes on as [self] on [finalizeOptions] after a confirmation that
    succeeded.  A result is an error, a key, or [finalizeOptions]. *)
Lemma run_requestkey_callback
    (self : CreateApiKeyOptions -> Async (Error + CreateApiKeyResponse))
    (options : CreateApiKeyOptions) (reply : PostReply) (w1 : W) :
  (exists r,
     run net (requestkey_callback X self options reply) w1
     = {| received := Some r; world := w1; trace := [] |}
     /\ ((exists err, r = inl err) \/ (exists key, r = inr (Issued (Some key)))
         \/ (exists body, r = inr (PendingConfirmation (finalize_options options body)))))
  \/ (exists r w2,
        run net (requestkey_callback X self options reply) w1
        = {| received := Some r; world := w2;
             trace := [EvGet apikey_page (Some "steamcommunity")] |}
        /\ ((exists err, r = inl err) \/ (exists key, r = inr (Issued (Some key)))))
  \/ (exists secret rid err w2,
        identitySecret options = Some secret
        /\ truthy_secret (Some secret) = true
        /\ run net (requestkey_callback X self options reply) w1
           = {| received := Some (inl err); world := w2;
                trace := [EvAccept secret rid] |})
  \/ (exists secret body w2,
        identitySecret options = Some secret
        /\ truthy_secret (Some secret) = true
        /\ run net (requestkey_callback X self options reply) w1
           = after (EvAccept secret (requestID (finalize_options options body)))
               (run net (self (finalize_options options body)) w2)).
Proof.
  unfold requestkey_callback.
  destruct reply as [err|[res body]].
  { left. eexists. split; [reflexivity|]. left. eauto. }
  destruct (Z.eqb (success body) (EResult_OK X)).
  - destruct (truthy_string (api_key body)) eqn:Hkey.
    + left. apply truthy_string_Some in Hkey. destruct Hkey as (key & -> & _).
      eexists. split; [reflexivity|]. right. left. eauto.
    + right. left. rewrite run_relay_lookup.
      destruct (run_getWebApiKey w1) as [r ->].
      exists (relay_lookup r). eexists. split; [reflexivity|].
      destruct r as [err|key]; simpl; eauto.
  - destruct (Z.eqb (success body) (EResult_Pending X)).
    + destruct (identitySecret options) as [secret|] eqn:Hsecret.
      * destruct (truthy_secret (Some secret)) eqn:Htruthy.
        -- simpl run.
           destruct (acceptConfirmationForObject net secret _ w1)
             as [[err|] w2].
           ++ right. right. left. exists secret. do 3 eexists.
              split; [reflexivity|]. split; [exact Htruthy|]. reflexivity.
           ++ right. right. right. exists secret, body, w2. auto.
        -- left. eexists. split; [reflexivity|]. right. right. eauto.
      * left. eexists. split; [reflexivity|]. right. right. eauto.
    + left. eexists. split; [reflexivity|]. left. eauto.
Qed.

(** A call on options without a secret: at most the registration call and
    the key lookup, and never a confirmation. *)
Lemma run_create_without_secret (options : CreateApiKeyOptions) (w : W) :
  truthy_secret (identitySecret options) = false ->
  exists r w' t,
    run net (createWebApiKey_fuel X 1 options) w
    = {| received := Some r; world := w'; trace := t |}
    /\ In (map Requests.kind t)
         [ []; [Requests.Post]; [Requests.Post; Requests.Get] ]
    /\ ((exists err, r = inl err) \/ (exists key, r = inr (Issued (Some key)))
        \/ (exists body, r = inr (PendingConfirmation (finalize_options options body)))).
Proof.
  intros Hsecret. rewrite createWebApiKey_fuel_S.
  destruct (negb (truthy_string (domain options))).
  { do 3 eexists. split; [reflexivity|]. split; [simpl; auto|]. left. eauto. }
  destruct (httpRequestPost net (registration options) None w)
    as [reply w1] eqn:Hpost.
  rewrite (run_HttpRequestPost W net _ _ _ _ w w1 reply Hpost).
  destruct (run_requestkey_callback (createWebApiKey_fuel X 0) options reply w1)
    as [(r & -> & Hr)|[(r & w2 & -> & Hr)|[H|H]]].
  - do 3 eexists. split; [reflexivity|]. split; [simpl; auto|]. exact Hr.
  - do 3 eexists. split; [reflexivity|]. split; [simpl; auto|].
    destruct Hr as [Hr|Hr]; auto.
  - destruct H as (secret & _ & _ & _ & Hsome & Htruthy & _).
    rewrite Hsome, Htruthy in Hsecret. discriminate.
  - destruct H as (secret & _ & _ & Hsome & Htruthy & _).
    rewrite Hsome, Htruthy in Hsecret. discriminate.
Qed.

(** What a call may send.  The requests of a run are, in order, one of:
    nothing; the registration call; that and the key lookup; that and one
    confirmation; those two and a second registration call; those three
    and the key lookup.  Without a secret no confirmation is ever
    accepted, and with one the only secret used is the caller's. *)
Theorem create_trace_shape (options : CreateApiKeyOptions) (w : W) :
  In (map Requests.kind (trace (run net (create options) w)))
    [ []; [Requests.Post]; [Requests.Post; Requests.Get];
      [Requests.Post; Requests.Accept];
      [Requests.Post; Requests.Accept; Requests.Post];
      [Requests.Post; Requests.Accept; Requests.Post; Requests.Get] ]
  /\ (truthy_secret (identitySecret options) = false ->
      ~ In Requests.Accept (map Requests.kind (trace (run net (create options) w))))
  /\ (forall secret objectID,
        In (EvAccept secret objectID) (trace (run net (create options) w)) ->
        identitySecret options = Some secret).
Proof.
  unfold createWebApiKey. rewrite createWebApiKey_fuel_S.
  destruct (negb (truthy_string (domain options))).
  { simpl. split; [auto|]. split; [tauto|]. intros ? ? []. }
  destruct (httpRequestPost net (registration options) None w)
    as [reply w1] eqn:Hpost.
  rewrite (run_HttpRequestPost W net _ _ _ _ w w1 reply Hpost).
  destruct (run_requestkey_callback (createWebApiKey_fuel X 1) options reply w1)
    as [(r & -> & _)|[(r & w2 & -> & _)|[H|H]]].
  - simpl. split; [auto|]. split.
    + intros _ [H|[]]. discriminate H.
    + intros ? ? [H|[]]. discriminate H.
  - simpl. split; [auto|]. split.
    + intros _ [H|[H|[]]]; discriminate H.
    + intros ? ? [H|[H|[]]]; discriminate H.
  - destruct H as (secret & rid & err & w2 & Hsome & Htruthy & ->).
    simpl. split; [auto 6|]. split.
    + intros Hnone. rewrite Hsome, Htruthy in Hnone. discriminate.
    + intros ? ? [H|[H|[]]]; [discriminate H|]. injection H as <- _. exact Hsome.
  - destruct H as (secret & body & w2 & Hsome & Htruthy & ->).
    destruct (run_create_without_secret (finalize_options options body) w2 eq_refl)
      as (r & w3 & t & -> & Ht & _).
    simpl. split; [|split].
    + simpl in Ht. destruct Ht as [<-|[<-|[<-|[]]]]; simpl; auto 8.
    + intros Hnone. rewrite Hsome, Htruthy in Hnone. discriminate.
    + intros s o [H|[H|H]]; [discriminate H|injection H as <- _; exact Hsome|].
      exfalso. apply (in_map Requests.kind) in H. simpl in H.
      destruct Ht as [Ht|[Ht|[Ht|[]]]]; rewrite <- Ht in H; simpl in H;
        intuition discriminate.
Qed.

(** What a call hands back when it does not fail: either a key and
    nothing to finalize, or [confirmationRequired] with [finalizeOptions]
    for the same domain and without a secret -- never both, and never a
    secret handed back to the caller. *)
Theorem create_result_shape (options : CreateApiKeyOptions) (w : W)
    (r : CreateApiKeyResponse) :
  received (run net (create options) w) = Some (inr r) ->
  (exists key, r = Issued (Some key))
  \/ (exists resume,
        r = PendingConfirmation resume
        /\ domain resume = domain options
        /\ identitySecret resume = None).
Proof.
  unfold createWebApiKey. rewrite createWebApiKey_fuel_S.
  destruct (negb (truthy_string (domain options))); [discriminate|].
  destruct (httpRequestPost net (registration options) None w)
    as [reply w1] eqn:Hpost.
  rewrite (run_HttpRequestPost W net _ _ _ _ w w1 reply Hpost).
  assert (Hshape : forall o (r' : Error + CreateApiKeyResponse),
            (exists err, r' = inl err) \/ (exists key, r' = inr (Issued (Some key)))
            \/ (exists body, r' = inr (PendingConfirmation (finalize_options o body))) ->
            domain o = domain options ->
            r' = inr r ->
            (exists key, r = Issued (Some key))
            \/ (exists resume, r = PendingConfirmation resume
                  /\ domain resume = domain options /\ identitySecret resume = None)).
  { intros o r' [(err & ->)|[(key & ->)|(body & ->)]] Hdomain' H;
      [discriminate|injection H as <-; eauto|injection H as <-].
    right. eexists. split; [reflexivity|]. split; [exact Hdomain'|reflexivity]. }
  destruct (run_requestkey_callback (createWebApiKey_fuel X 1) options reply w1)
    as [(r' & -> & Hr)|[(r' & w2 & -> & Hr)|[H|H]]].
  - simpl. intros H. injection H as H. exact (Hshape options r' Hr eq_refl H).
  - simpl. intros H. injection H as H.
    apply (Hshape options r'); [tauto|reflexivity|exact H].
  - destruct H as (secret & rid & err & w2 & _ & _ & ->). discriminate.
  - destruct H as (secret & body & w2 & _ & _ & ->).
    destruct (run_create_without_secret (finalize_options options body) w2 eq_refl)
      as (r' & w3 & t & -> & _ & Hr).
    simpl. intros H. injection H as H.
    exact (Hshape (finalize_options options body) r' Hr eq_refl H).
Qed.

(** Passing the secret is the manual procedure done in one call.  If the
    call without the secret hands back [finalizeOptions], and the
    confirmation for their [requestID] is then accepted, the call with
    the secret makes the same registration call, accepts that
    confirmation, and from there runs as [createWebApiKey] on those
    [finalizeOptions] does: same requests, same result. *)
Theorem automatic_is_manual_then_confirm (options resume : CreateApiKeyOptions)
    (secret : Secret) (w w1 w2 : W) (t : list Event) :
  identitySecret options = Some secret ->
  truthy_secret (Some secret) = true ->
  run net (create {| domain := domain options; requestID := requestID options;
                     identitySecret := None |}) w
    = {| received := Some (inr (PendingConfirmation resume)); world := w1;
         trace := t |} ->
  acceptConfirmationForObject net secret (requestID resume) w1 = (None, w2) ->
  t = [EvPost (registration options) None]
  /\ run net (create options) w
     = after (EvPost (registration options) None)
         (after (EvAccept secret (requestID resume))
            (run net (create resume) w2)).
Proof.
  intros Hsecret Htruthy Hmanual Haccept.
  unfold createWebApiKey in Hmanual |- *.
  rewrite createWebApiKey_fuel_S in Hmanual |- *. simpl domain in Hmanual.
  destruct (negb (truthy_string (domain options))); [discriminate|].
  change (requestkey_options X {| domain := domain options;
                                  requestID := requestID options;
                                  identitySecret := None |})
    with (registration options) in Hmanual.
  destruct (httpRequestPost net (registration options) None w)
    as [reply w1'] eqn:Hpost.
  rewrite (run_HttpRequestPost W net _ _ _ _ w w1' reply Hpost) in Hmanual.
  rewrite (run_HttpRequestPost W net _ _ _ _ w w1' reply Hpost).
  unfold requestkey_callback in Hmanual |- *.
  destruct reply as [err|[res body]]; [discriminate|].
  destruct (Z.eqb (success body) (EResult_OK X)).
  { destruct (truthy_string (api_key body)); [discriminate|].
    rewrite run_relay_lookup in Hmanual.
    destruct (run_getWebApiKey w1') as [r Hr]. rewrite Hr in Hmanual.
    destruct r; discriminate. }
  destruct (Z.eqb (success body) (EResult_Pending X)); [|discriminate].
  cbv zeta in Hmanual |- *. simpl identitySecret in Hmanual.
  rewrite Hsecret, Htruthy.
  injection Hmanual as Hresume Hworld Htrace. subst resume w1' t.
  split; [reflexivity|].
  change (finalize_options {| domain := domain options;
                              requestID := requestID options;
                              identitySecret := None |} body)
    with (finalize_options options body) in Haccept |- *.
  rewrite (run_AcceptConfirmationForObject W net _ _ _ _ w1 w2 None Haccept).
  rewrite (run_without_secret X W net 1 (finalize_options options body) w2 eq_refl).
  reflexivity.
Qed.

End KeyCoverage.

(** ** Revoking the key *)

Section RevokeCoverage.

Import RevokeKey.

Variable Body : Type.
Variable W : Type.
Variable httpRequestPost : RevokeOptions -> string -> W -> RevokeReply Body * W.

(** [revokeWebApiKey] posts the revocation form once.  It reports success
    exactly when the answer has status 302; a transport error is handed
    on as it is, and any other status, 200 included, is an error whose
    message is "HTTP error " followed by the status. *)
Theorem revokeWebApiKey_outcome (sessionid : string) (w w' : W)
    (reply : RevokeReply Body) :
  httpRequestPost
    {| revoke_uri := "https://steamcommunity.com/dev/revokekey";
       revoke_form := {| form_Revoke := "Revoke My Steam Web API Key";
                         form_revoke_sessionid := sessionid |};
       revoke_json := true |} "steamcommunity" w = (reply, w') ->
  exists outcome,
    run_revocation httpRequestPost (revokeWebApiKey Body sessionid) w
    = (outcome, w',
       [({| revoke_uri := "https://steamcommunity.com/dev/revokekey";
            revoke_form := {| form_Revoke := "Revoke My Steam Web API Key";
                              form_revoke_sessionid := sessionid |};
            revoke_json := true |}, "steamcommunity")])
    /\ (outcome = None
        <-> exists response body,
              reply = inr (response, body) /\ statusCode response = 302)
    /\ (forall err, reply = inl err -> outcome = Some err)
    /\ (forall response body,
          reply = inr (response, body) -> statusCode response <> 302 ->
          outcome = Some (new_Error
                            ("HTTP error " ++ number_to_string (statusCode response)))).
Proof.
  intros Hpost. unfold revokeWebApiKey. simpl. rewrite Hpost.
  destruct reply as [err|[response body]].
  - eexists. split; [reflexivity|]. split; [|split].
    + split; [discriminate|]. intros (? & ? & H & _). discriminate H.
    + intros err' H. injection H as <-. reflexivity.
    + intros ? ? H. discriminate H.
  - destruct (Z.eqb_spec (statusCode response) 302) as [Hstatus|Hstatus]; simpl.
    + eexists. split; [reflexivity|]. split; [|split].
      * split; [eauto|reflexivity].
      * intros ? H. discriminate H.
      * intros response' body' H. injection H as <- <-. contradiction.
    + eexists. split; [reflexivity|]. split; [|split].
      * split; [discriminate|].
        intros (response' & body' & H & Hfound). injection H as <- <-.
        contradiction.
      * intros ? H. discriminate H.
      * intros response' body' H _. injection H as <- <-. reflexivity.
Qed.

End RevokeCoverage.

(** ** The further properties on the sample sessions and servers *)

Import MoreSamples.

(** Alice's token, stored at the sample clock, survives a check one hour
    later, in the second it expires. *)
Lemma install_then_verify_witness :
  _verifyMobileAccessToken decodeJwt 1700003600999
    (logged_on_as alice (Some "alice.mobile.fresh"))
  = (Normal, logged_on_as alice (Some "alice.mobile.fresh")).
Proof.
  assert (Hname : "alice.mobile.fresh" <> "") by discriminate.
  apply (proj1 (install_then_verify decodeJwt clock 1700003600999
                  (logged_on_as alice None)
                  (logged_on_as alice (Some "alice.mobile.fresh"))
                  "alice.mobile.fresh"
                  (claims "76561198000000001" (Some ["web"; "mobile"]) 1700003600)
                  1700003600 Hname eq_refl eq_refl eq_refl)).
  discriminate.
Defined.

(** A token that expired a second before the sample clock is deleted at
    that clock and at any later one. *)
Lemma later_clock_is_stricter_witness :
  _verifyMobileAccessToken decodeJwt (clock + 5000)
    (logged_on_as alice (Some "alice.mobile.expired"))
  = (Normal, logged_on_as alice None).
Proof.
  assert (Hclock : clock <= clock + 5000) by (vm_compute; discriminate).
  apply (proj1 (later_clock_is_stricter decodeJwt clock (clock + 5000)
                  (logged_on_as alice (Some "alice.mobile.expired"))
                  "alice.mobile.expired" Hclock)).
  reflexivity.
Defined.

Lemma getWebApiKey_outcome_witness :
  received (run (server 0 None None) (getWebApiKey steam) 0%nat)
  = Some (inr "0123456789ABCDEF").
Proof.
  apply (proj2 (proj2 (proj2 (getWebApiKey_outcome steam nat (server 0 None None)
                                0%nat 0%nat
                                (inr ({| statusCode := 200 |}, key_page))
                                eq_refl)))
           {| statusCode := 200 |} key_page "0123456789ABCDEF" eq_refl).
  repeat split.
Defined.

(** An answer with result code 5 fails the call with the error made from
    that code. *)
Lemma create_relays_failures_witness :
  run (rejecting_server 5) (createWebApiKey steam manual) 0%nat
  = {| received := Some (inl (eresultError steam 5)); world := 1%nat;
       trace := [EvPost (requestkey_options steam manual) None] |}.
Proof.
  apply (proj2 (create_relays_failures steam nat (rejecting_server 5) manual
                  0%nat 1%nat _ eq_refl eq_refl)
           {| statusCode := 200 |}
           {| success := 5; api_key := None; request_id := None;
              requires_confirmation := None |} eq_refl).
  - discriminate.
  - discriminate.
Defined.

Lemma create_result_shape_witness :
  exists resume,
    PendingConfirmation
      {| domain := Some "example.com"; requestID := Some "4815162342";
         identitySecret := None |}
    = PendingConfirmation resume
    /\ domain resume = domain manual
    /\ identitySecret resume = None.
Proof.
  destruct (create_result_shape steam nat (server 1 None None) manual 0%nat
              (PendingConfirmation
                 {| domain := Some "example.com";
                    requestID := Some "4815162342";
                    identitySecret := None |}) eq_refl)
    as [(key & Hkey)|Hresume].
  - discriminate Hkey.
  - exact Hresume.
Defined.

(** Against a server that answers [Pending] once, the call with the
    secret is the call without it, the confirmation, and the call on
    [finalizeOptions]. *)
Lemma automatic_is_manual_then_confirm_witness :
  run (server 1 (Some "0123456789ABCDEF") None)
    (createWebApiKey steam automatic) 0%nat
  = after (EvPost (requestkey_options steam automatic) None)
      (after (EvAccept (SecretString "c2VjcmV0") (Some "4815162342"))
         (run (server 1 (Some "0123456789ABCDEF") None)
            (createWebApiKey steam
               {| domain := Some "example.com";
                  requestID := Some "4815162342";
                  identitySecret := None |}) 1%nat)).
Proof.
  apply (proj2 (automatic_is_manual_then_confirm steam nat
                  (server 1 (Some "0123456789ABCDEF") None) automatic
                  {| domain := Some "example.com";
                     requestID := Some "4815162342";
                     identitySecret := None |}
                  (SecretString "c2VjcmV0") 0%nat 1%nat 1%nat
                  [EvPost (requestkey_options steam automatic) None]
                  eq_refl eq_refl eq_refl eq_refl)).
Defined.

(** The revocation succeeds on a redirect. *)
Lemma revokeWebApiKey_outcome_witness :
  RevokeKey.run_revocation revoke_server
    (RevokeKey.revokeWebApiKey unit "0123456789abcdef01234567") 302
  = (None, 302,
     [({| RevokeKey.revoke_uri := "https://steamcommunity.com/dev/revokekey";
          RevokeKey.revoke_form :=
            {| RevokeKey.form_Revoke := "Revoke My Steam Web API Key";
               RevokeKey.form_revoke_sessionid := "0123456789abcdef01234567" |};
          RevokeKey.revoke_json := true |}, "steamcommunity")]).
Proof.
  destruct (revokeWebApiKey_outcome unit Z revoke_server
              "0123456789abcdef01234567" 302 302
              (inr ({| statusCode := 302 |}, tt)) eq_refl)
    as (outcome & Hrun & Hsuccess & _).
  rewrite Hrun. f_equal. f_equal. apply Hsuccess.
  exists {| statusCode := 302 |}, tt. split; reflexivity.
Defined.
